(** * Kubernetes tools of the agent: a shallow embedding of [basicTools.py]

    The four tool functions of [basicTools.py] talk to a cluster through the
    Kubernetes Python client.  Each of them is embedded as a program over the
    calls it makes ([os.path.isfile], [config.load_kube_config], the
    [AppsV1Api] and [CoreV1Api] methods, the clock), with Python's exceptions
    and [try]/[except] blocks written out; a program is run against an
    arbitrary environment that answers every call, and the run records the
    history of calls and replies. *)

From Stdlib Require Import ZArith String Ascii List Lia.
From stdpp Require Import base option list strings pretty gmap.

Local Open Scope Z_scope.
Local Open Scope stdpp_scope.

(** ** Python values the tools exchange with the client *)

(** An exception of class [Exception].  [client.rest.ApiException] carries the
    HTTP [status] ([None] when no response was received); every other
    exception is kept with its text only.  [text] is what [f"{e}"] prints. *)
Inductive exn : Set :=
| ApiException (status : option Z) (text : string)
| OtherException (text : string).

Definition str_exn (e : exn) : string :=
  match e with
  | ApiException _ text => text
  | OtherException text => text
  end.

(** The result of evaluating an expression that may raise. *)
Inductive outcome (X : Type) : Type :=
| Ok (x : X)
| Err (e : exn).
Arguments Ok {X} x.
Arguments Err {X} e.

(** A naive [datetime.datetime], as [datetime.datetime.utcnow()] returns it. *)
Record datetime : Set := {
  year : Z; month : Z; day : Z;
  hour : Z; minute : Z; second : Z; microsecond : Z
}.

(** The attributes of the client's model objects that the tools read.
    [metadata] and a pod's [status] are read without a guard and are always
    set by the API server; [spec], [status] of a deployment and the fields
    below them are [None]-able, as the code's own guards expect.  A timezone
    aware [creation_timestamp] is kept as microseconds since the epoch: the
    code only subtracts it from [datetime.now(tz)]. *)
Record V1ObjectMeta : Set := {
  name : string;
  creation_timestamp : option Z
}.

Record V1PodStatus : Set := {
  phase : option string;
  pod_ip : option string
}.

Record V1Pod : Set := {
  pod_metadata : V1ObjectMeta;
  pod_status : V1PodStatus
}.

Record V1Container : Set := { container_image : string }.

Record V1PodSpec : Set := { containers : list V1Container }.

Record V1PodTemplateSpec : Set := { template_spec : option V1PodSpec }.

Record V1LabelSelector : Set := {
  match_labels : option (list (string * string))
}.

Record V1DeploymentSpec : Set := {
  replicas : option Z;
  selector : option V1LabelSelector;
  template : option V1PodTemplateSpec
}.

Record V1DeploymentStatus : Set := {
  ready_replicas : option Z;
  available_replicas : option Z;
  updated_replicas : option Z
}.

Record V1Deployment : Set := {
  metadata : V1ObjectMeta;
  spec : option V1DeploymentSpec;
  status : option V1DeploymentStatus
}.

(** A nested [dict] of strings, the shape of the patch body. *)
#[warnings="-register-all"]
Inductive pyval : Set :=
| PStr (s : string)
| PDict (items : list (string * pyval)).

(** ** Calls, programs and runs *)

(** The calls that leave the module, indexed by the type of their result. *)
Inductive call : Type -> Type :=
| os_path_isfile (path : string) : call bool
| load_kube_config (config_file : string) : call unit
| list_namespaced_pod (namespace : string) (label_selector : option string)
    : call (list V1Pod)
| list_namespaced_deployment (namespace : string) : call (list V1Deployment)
| read_namespaced_deployment (name namespace : string) : call V1Deployment
| patch_namespaced_deployment (name namespace : string) (body : pyval)
    : call V1Deployment
| read_namespaced_pod_log (name namespace : string) (since_seconds : Z)
    (tail_lines : option Z) : call string
| datetime_now : call Z
| datetime_utcnow : call datetime.

(** A Python function body: it returns, raises, prints a line and goes on, or
    makes a call and goes on with the call's outcome. *)
Inductive prog (A : Type) : Type :=
| Ret (a : A)
| Raise (e : exn)
| Print (line : string) (k : prog A)
| Call {X : Type} (c : call X) (k : outcome X -> prog A).
Arguments Ret {A} a.
Arguments Raise {A} e.
Arguments Print {A} line k.
Arguments Call {A X} c k.

Fixpoint bind {A B : Type} (m : prog A) (f : A -> prog B) : prog B :=
  match m with
  | Ret a => f a
  | Raise e => Raise e
  | Print line k => Print line (bind k f)
  | Call c k => Call c (fun o => bind (k o) f)
  end.

#[global] Instance prog_ret : MRet prog := @Ret.
#[global] Instance prog_bind : MBind prog := fun A B f m => bind m f.

(** [try: m except Exception as e: h e] *)
Fixpoint try_except {A : Type} (m : prog A) (h : exn -> prog A) : prog A :=
  match m with
  | Ret a => Ret a
  | Raise e => h e
  | Print line k => Print line (try_except k h)
  | Call c k => Call c (fun o => try_except (k o) h)
  end.

(** [try: m except client.rest.ApiException as e: h e]: any other exception
    goes on to the enclosing block. *)
Definition try_except_api {A : Type} (m : prog A)
    (h : option Z -> string -> prog A) : prog A :=
  try_except m (fun e =>
    match e with
    | ApiException st text => h st text
    | OtherException _ => Raise e
    end).

(** A call whose exception, if it raises, propagates. *)
Definition invoke {X : Type} (c : call X) : prog X :=
  Call c (fun o => match o with Ok x => Ret x | Err e => Raise e end).

Definition print (line : string) : prog unit := Print line (Ret tt).

(** What a run leaves behind: every call with its outcome, and every printed
    line, oldest first. *)
Inductive event : Type :=
| EvCall {X : Type} (c : call X) (r : outcome X)
| EvPrint (line : string).

Definition history : Type := list event.

(** The world outside the module: it answers a call, given all that happened
    before.  A stub client that counts calls, or fails twice and then
    succeeds, is such a function. *)
Definition environment : Type := forall X : Type, history -> call X -> outcome X.

Fixpoint run {A : Type} (env : environment) (m : prog A) (h : history)
    : outcome A * history :=
  match m with
  | Ret a => (Ok a, h)
  | Raise e => (Err e, h)
  | Print line k => run env k (h ++ [EvPrint line])
  | Call c k =>
      let r := env _ h c in
      run env (k r) (h ++ [EvCall c r])
  end.

(** ** Observations on histories *)

Definition is_patch_call (ev : event) : bool :=
  match ev with
  | EvCall c _ =>
      match c with
      | patch_namespaced_deployment _ _ _ => true
      | _ => false
      end
  | EvPrint _ => false
  end.

(** The calls that go to the cluster's API server; [os.path.isfile], loading
    the kubeconfig file and reading the clock stay on the machine. *)
Definition is_network_call (ev : event) : bool :=
  match ev with
  | EvCall c _ =>
      match c with
      | list_namespaced_pod _ _ => true
      | list_namespaced_deployment _ => true
      | read_namespaced_deployment _ _ => true
      | patch_namespaced_deployment _ _ _ => true
      | read_namespaced_pod_log _ _ _ _ => true
      | _ => false
      end
  | EvPrint _ => false
  end.

Definition is_log_call (ev : event) : bool :=
  match ev with
  | EvCall c _ =>
      match c with
      | read_namespaced_pod_log _ _ _ _ => true
      | _ => false
      end
  | EvPrint _ => false
  end.

(** The event is a call that raised. *)
Definition raised (ev : event) : bool :=
  match ev with
  | EvCall _ (Err _) => true
  | _ => false
  end.

(** The event is a pod log read that raised an [ApiException]. *)
Definition log_api_error (ev : event) : bool :=
  match ev with
  | EvCall c (Err (ApiException _ _)) =>
      match c with
      | read_namespaced_pod_log _ _ _ _ => true
      | _ => false
      end
  | _ => false
  end.

Definition count_events (p : event -> bool) (h : history) : nat :=
  length (List.filter p h).

(** ** Formatting *)

Definition digit_char (d : Z) : ascii := ascii_of_nat (Z.to_nat (48 + d)).

(** The [width] low decimal digits of [n], most significant first: what
    ["%0{width}d"] prints for [0 <= n < 10^width], the range the [datetime]
    class keeps its fields in. *)
Fixpoint zfill_acc (width : nat) (n : Z) (acc : string) : string :=
  match width with
  | O => acc
  | S w => zfill_acc w (n / 10) (String (digit_char (n mod 10)) acc)
  end.

Definition zfill (width : nat) (n : Z) : string := zfill_acc width n "".

(** [datetime.isoformat()] of a naive datetime: the fraction is printed only
    when [microsecond] is not zero. *)
Definition isoformat (dt : datetime) : string :=
  zfill 4 (year dt) +:+ "-" +:+ zfill 2 (month dt) +:+ "-" +:+ zfill 2 (day dt)
  +:+ "T" +:+ zfill 2 (hour dt) +:+ ":" +:+ zfill 2 (minute dt) +:+ ":"
  +:+ zfill 2 (second dt)
  +:+ (if microsecond dt =? 0 then "" else "." +:+ zfill 6 (microsecond dt)).

(** The value of ["age_minutes"].  Without a creation time it is the integer
    [0]; with one it is the float [round(age_seconds / 60, 1)], where
    [age_seconds] is the [total_seconds()] of the time elapsed since the
    creation.  Floating point is not modelled: the float is kept as the
    elapsed time, in microseconds, that Python computes it from. *)
Inductive minutes : Set :=
| ZeroMinutes
| RoundedMinutes (elapsed_microseconds : Z).

(** [",".join([f"{k}={v}" for k, v in selector.items()])] *)
Definition label_selector_of (labels : list (string * string)) : string :=
  String.concat "," (map (fun kv => fst kv +:+ "=" +:+ snd kv) labels).

(** [x or 0] on an optional count. *)
Definition or_zero (x : option Z) : Z :=
  match x with
  | Some n => n
  | None => 0
  end.

(** [e.status == 404] *)
Definition status_is (st : option Z) (code : Z) : bool :=
  match st with
  | Some s => s =? code
  | None => false
  end.

(** ** The dictionaries the tools return *)

Module PodInfo.
Record t : Set := { name : string; status : option string; ip : option string }.
End PodInfo.

Module DeploymentInfo.
Record t : Set := {
    name : string;
    ready_replicas : Z;
    total_replicas : option Z;
    available_replicas : Z;
    up_to_date_replicas : Z;
    image : list string;
    age_minutes : minutes;
    is_healthy : bool
}.
End DeploymentInfo.

(** The result of [rollout_restart_deployment] and [get_deployment_logs];
    the key ["logs"] is absent ([None]) from the former. *)
Module Result.
Record t : Type := {
    success : bool;
    message : string;
    logs : option (gmap string string);
    deployment_name : string;
    namespace : string
}.
End Result.

(** The messages, one per f-string of the source. *)
Definition KUBECONFIG_PATH : string := "C:/Users/mandapak/Desktop/wslk3s.yaml".

Definition kubeconfig_not_found_message : string :=
  "Kubeconfig file not found at " +:+ KUBECONFIG_PATH.

Definition restart_initiated_message (deployment_name namespace : string)
    : string :=
  "Deployment '" +:+ deployment_name +:+ "' in namespace '" +:+ namespace
  +:+ "' rollout restart initiated".

Definition deployment_not_found_message (deployment_name namespace : string)
    : string :=
  "Deployment '" +:+ deployment_name +:+ "' not found in namespace '"
  +:+ namespace +:+ "'".

Definition api_error_message (e : string) : string := "API Error: " +:+ e.

Definition error_message (e : exn) : string := "Error: " +:+ str_exn e.

Definition no_pods_message (deployment_name namespace : string) : string :=
  "No pods found for deployment '" +:+ deployment_name +:+ "' in namespace '"
  +:+ namespace +:+ "'".

Definition retrieved_logs_message (pods : nat) (deployment_name : string)
    : string :=
  "Retrieved logs for " +:+ pretty pods +:+ " pods in deployment '"
  +:+ deployment_name +:+ "'".

Definition log_error_entry (e : string) : string :=
  "Error retrieving logs: " +:+ e.

Definition namespace_not_found_message (namespace : string) : string :=
  "Error: Namespace '" +:+ namespace +:+ "' not found".

(** ** The tools *)

Definition pod_info_of (pod : V1Pod) : PodInfo.t :=
  {| PodInfo.name := name (pod_metadata pod);
     PodInfo.status := phase (pod_status pod);
     PodInfo.ip := pod_ip (pod_status pod) |}.

Definition list_pods_in_namespace (namespace : string) : prog (list PodInfo.t) :=
  try_except
    (kubeconfig_found ← invoke (os_path_isfile KUBECONFIG_PATH);
     if negb kubeconfig_found then
       print ("Error: " +:+ kubeconfig_not_found_message);;
       mret []
     else
       invoke (load_kube_config KUBECONFIG_PATH);;
       try_except_api
         (pod_list ← invoke (list_namespaced_pod namespace None);
          mret (map pod_info_of pod_list))
         (fun st e =>
            (if status_is st 404
             then print (namespace_not_found_message namespace)
             else print (api_error_message e));;
            mret []))
    (fun e => print (error_message e);; mret []).

(** The container images of a deployment, behind the code's three guards. *)
Definition images_of (deployment : V1Deployment) : list string :=
  match spec deployment with
  | Some sp =>
      match template sp with
      | Some tpl =>
          match template_spec tpl with
          | Some ps => map container_image (containers ps)
          | None => []
          end
      | None => []
      end
  | None => []
  end.

(** [ready is not None and ready == total and available is not None and
    available == total], on the counts as the cluster reports them. *)
Definition healthy (total ready available : option Z) : bool :=
  bool_decide (ready ≠ None) && bool_decide (ready = total)
  && bool_decide (available ≠ None) && bool_decide (available = total).

(** The body of the loop over [deployment_list.items]. *)
Definition deployment_info_of (deployment : V1Deployment)
    : prog DeploymentInfo.t :=
  let images := images_of deployment in
  age_minutes ←
    match creation_timestamp (metadata deployment) with
    | Some created =>
        now ← invoke datetime_now;
        mret (RoundedMinutes (now - created))
    | None => mret ZeroMinutes
    end;
  let total_replicas :=
    match spec deployment with Some sp => replicas sp | None => Some 0 end in
  let ready_replicas :=
    match status deployment with Some st => ready_replicas st | None => Some 0 end in
  let available_replicas :=
    match status deployment with Some st => available_replicas st | None => Some 0 end in
  let up_to_date_replicas :=
    match status deployment with Some st => updated_replicas st | None => Some 0 end in
  let is_healthy := healthy total_replicas ready_replicas available_replicas in
  mret {| DeploymentInfo.name := name (metadata deployment);
          DeploymentInfo.ready_replicas := or_zero ready_replicas;
          DeploymentInfo.total_replicas := total_replicas;
          DeploymentInfo.available_replicas := or_zero available_replicas;
          DeploymentInfo.up_to_date_replicas := or_zero up_to_date_replicas;
          DeploymentInfo.image := images;
          DeploymentInfo.age_minutes := age_minutes;
          DeploymentInfo.is_healthy := is_healthy |}.

Fixpoint deployment_infos (items : list V1Deployment)
    : prog (list DeploymentInfo.t) :=
  match items with
  | [] => mret []
  | deployment :: rest =>
      info ← deployment_info_of deployment;
      infos ← deployment_infos rest;
      mret (info :: infos)
  end.

Definition list_deployments_in_namespace (namespace : string)
    : prog (list DeploymentInfo.t) :=
  try_except
    (kubeconfig_found ← invoke (os_path_isfile KUBECONFIG_PATH);
     if negb kubeconfig_found then
       print ("Error: " +:+ kubeconfig_not_found_message);;
       mret []
     else
       invoke (load_kube_config KUBECONFIG_PATH);;
       try_except_api
         (deployment_list ← invoke (list_namespaced_deployment namespace);
          deployment_infos deployment_list)
         (fun st e =>
            (if status_is st 404
             then print (namespace_not_found_message namespace)
             else print (api_error_message e));;
            mret []))
    (fun e => print (error_message e);; mret []).

Definition restart_result (success : bool) (message : string)
    (deployment_name namespace : string) : Result.t :=
  {| Result.success := success;
     Result.message := message;
     Result.logs := None;
     Result.deployment_name := deployment_name;
     Result.namespace := namespace |}.

Definition logs_result (success : bool) (message : string)
    (logs : gmap string string) (deployment_name namespace : string)
    : Result.t :=
  {| Result.success := success;
     Result.message := message;
     Result.logs := Some logs;
     Result.deployment_name := deployment_name;
     Result.namespace := namespace |}.

Definition RESTARTED_AT : string := "kubectl.kubernetes.io/restartedAt".

(** The patch body built from the timestamp [now]. *)
Definition patch_body (now : string) : pyval :=
  PDict [("spec", PDict [("template", PDict [("metadata",
    PDict [("annotations", PDict [(RESTARTED_AT, PStr now)])])])])].

Definition rollout_restart_deployment (deployment_name namespace : string)
    : prog Result.t :=
  try_except
    (kubeconfig_found ← invoke (os_path_isfile KUBECONFIG_PATH);
     if negb kubeconfig_found then
       mret (restart_result false
               kubeconfig_not_found_message
               deployment_name namespace)
     else
       invoke (load_kube_config KUBECONFIG_PATH);;
       try_except_api
         (deployment ← invoke (read_namespaced_deployment deployment_name namespace);
          utcnow ← invoke datetime_utcnow;
          let now := isoformat utcnow +:+ "Z" in
          result ← invoke (patch_namespaced_deployment deployment_name namespace
                             (patch_body now));
          mret (restart_result true
                  (restart_initiated_message deployment_name namespace)
                  deployment_name namespace))
         (fun st e =>
            if status_is st 404 then
              mret (restart_result false
                      (deployment_not_found_message deployment_name namespace)
                      deployment_name namespace)
            else
              mret (restart_result false (api_error_message e)
                      deployment_name namespace)))
    (fun e =>
       mret (restart_result false (error_message e)
               deployment_name namespace)).

(** [deployment.spec.selector.match_labels] followed by [selector.items()]:
    an attribute read on [None] raises [AttributeError]. *)
Definition selector_items (deployment : V1Deployment)
    : prog (list (string * string)) :=
  match spec deployment with
  | None => Raise (OtherException "'NoneType' object has no attribute 'selector'")
  | Some sp =>
      match selector sp with
      | None =>
          Raise (OtherException "'NoneType' object has no attribute 'match_labels'")
      | Some sel =>
          match match_labels sel with
          | None =>
              Raise (OtherException "'NoneType' object has no attribute 'items'")
          | Some labels => mret labels
          end
      end
  end.

(** The loop over [pods.items]: one log read per pod, an [ApiException] of
    the read turned into the pod's entry. *)
Fixpoint fetch_logs (items : list V1Pod) (namespace : string)
    (since_seconds : Z) (tail_lines : option Z) (logs_dict : gmap string string)
    : prog (gmap string string) :=
  match items with
  | [] => mret logs_dict
  | pod :: rest =>
      entry ← try_except_api
                (invoke (read_namespaced_pod_log (name (pod_metadata pod))
                           namespace since_seconds tail_lines))
                (fun _ e => mret (log_error_entry e));
      fetch_logs rest namespace since_seconds tail_lines
        (<[name (pod_metadata pod) := entry]> logs_dict)
  end.

(** [hours] is an [int], as the docstring has it, so that
    [int(hours * 3600)] is [hours * 3600]. *)
Definition get_deployment_logs (deployment_name namespace : string)
    (hours : Z) (tail_lines : option Z) : prog Result.t :=
  try_except
    (kubeconfig_found ← invoke (os_path_isfile KUBECONFIG_PATH);
     if negb kubeconfig_found then
       mret (logs_result false
               kubeconfig_not_found_message
               ∅ deployment_name namespace)
     else
       invoke (load_kube_config KUBECONFIG_PATH);;
       try_except_api
         (deployment ← invoke (read_namespaced_deployment deployment_name namespace);
          labels ← selector_items deployment;
          let label_selector := label_selector_of labels in
          pods ← invoke (list_namespaced_pod namespace (Some label_selector));
          match pods with
          | [] =>
              mret (logs_result false
                      (no_pods_message deployment_name namespace)
                      ∅ deployment_name namespace)
          | _ :: _ =>
              let since_seconds := hours * 3600 in
              logs_dict ← fetch_logs pods namespace since_seconds tail_lines ∅;
              mret (logs_result true
                      (retrieved_logs_message (size logs_dict) deployment_name)
                      logs_dict deployment_name namespace)
          end)
         (fun st e =>
            if status_is st 404 then
              mret (logs_result false
                      (deployment_not_found_message deployment_name namespace)
                      ∅ deployment_name namespace)
            else
              mret (logs_result false (api_error_message e)
                      ∅ deployment_name namespace)))
    (fun e =>
       mret (logs_result false (error_message e)
               ∅ deployment_name namespace)).

(** ** Stub clusters

    A call-counting stub client in the sense of the tests the specification
    asks for: the history of a run is the count.  The stub holds the
    deployments and pods of one namespace, the pods whose log read fails,
    and the number of patch calls it fails before it acknowledges one. *)

Record stub : Set := {
  kubeconfig_present : bool;
  stub_deployments : list V1Deployment;
  stub_pods : list V1Pod;
  failing_pods : list string;
  patch_failures : nat;
  stub_clock : datetime
}.

Definition not_found : exn :=
  ApiException (Some 404) "(404) Reason: Not Found".

Definition server_error : exn :=
  ApiException (Some 500) "(500) Reason: Internal Server Error".

Definition find_deployment (deployments : list V1Deployment) (n : string)
    : outcome V1Deployment :=
  match List.find (fun d => String.eqb (name (metadata d)) n) deployments with
  | Some d => Ok d
  | None => Err not_found
  end.

Definition stub_env (s : stub) : environment :=
  fun X h c =>
    match c in call T return outcome T with
    | os_path_isfile _ => Ok (kubeconfig_present s)
    | load_kube_config _ => Ok tt
    | list_namespaced_pod _ _ => Ok (stub_pods s)
    | list_namespaced_deployment _ => Ok (stub_deployments s)
    | read_namespaced_deployment n _ => find_deployment (stub_deployments s) n
    | patch_namespaced_deployment n _ _ =>
        if (count_events is_patch_call h <? patch_failures s)%nat
        then Err server_error
        else find_deployment (stub_deployments s) n
    | read_namespaced_pod_log n _ _ _ =>
        if existsb (String.eqb n) (failing_pods s)
        then Err server_error
        else Ok ("log of " +:+ n)
    | datetime_now => Ok 1700000000000000
    | datetime_utcnow => Ok (stub_clock s)
    end.

Definition sample_clock : datetime :=
  {| year := 2024; month := 5; day := 17;
     hour := 9; minute := 3; second := 41; microsecond := 250000 |}.

(** A deployment named [n] selecting [app=n], with [desired] replicas of which
    [ready] are ready and available. *)
Definition sample_deployment (n : string) (desired : option Z)
    (ready : option Z) : V1Deployment :=
  {| metadata := {| name := n; creation_timestamp := Some 1699999000000000 |};
     spec := Some {| replicas := desired;
                     selector := Some {| match_labels := Some [("app", n)] |};
                     template := Some {| template_spec :=
                       Some {| containers := [{| container_image := "nginx:1.25" |}] |} |} |};
     status := Some {| ready_replicas := ready;
                       available_replicas := ready;
                       updated_replicas := ready |} |}.

Definition sample_pod (n : string) : V1Pod :=
  {| pod_metadata := {| name := n; creation_timestamp := None |};
     pod_status := {| phase := Some "Running"; pod_ip := Some "10.42.0.7" |} |}.

(** One deployment [checkout] with three running pods. *)
Definition sample_stub : stub :=
  {| kubeconfig_present := true;
     stub_deployments := [sample_deployment "checkout" (Some 3) (Some 3)];
     stub_pods := [sample_pod "checkout-a"; sample_pod "checkout-b";
                   sample_pod "checkout-c"];
     failing_pods := [];
     patch_failures := 0;
     stub_clock := sample_clock |}.

(** The stub of the retry test: it fails the first two patch calls and would
    acknowledge the third. *)
Definition flaky_stub : stub :=
  {| kubeconfig_present := true;
     stub_deployments := [sample_deployment "checkout" (Some 3) (Some 3)];
     stub_pods := [sample_pod "checkout-a"; sample_pod "checkout-b";
                   sample_pod "checkout-c"];
     failing_pods := [];
     patch_failures := 2;
     stub_clock := sample_clock |}.

(** The log read of pod [checkout-b] fails. *)
Definition pod_b_fails_stub : stub :=
  {| kubeconfig_present := true;
     stub_deployments := [sample_deployment "checkout" (Some 3) (Some 3)];
     stub_pods := [sample_pod "checkout-a"; sample_pod "checkout-b";
                   sample_pod "checkout-c"];
     failing_pods := ["checkout-b"];
     patch_failures := 0;
     stub_clock := sample_clock |}.

(** A deployment scaled to zero: the API server leaves [readyReplicas] and
    [availableReplicas] out of the status, and no pod matches. *)
Definition scaled_to_zero_stub : stub :=
  {| kubeconfig_present := true;
     stub_deployments := [sample_deployment "checkout" (Some 0) None];
     stub_pods := [];
     failing_pods := [];
     patch_failures := 0;
     stub_clock := sample_clock |}.

(** The sample cluster, but the namespace is gone when the pods are
    listed. *)
Definition vanished_namespace_env : environment :=
  fun X h c =>
    match c in call T return outcome T with
    | list_namespaced_pod _ _ => Err not_found
    | c' => stub_env sample_stub _ h c'
    end.

(** No kubeconfig file on the machine. *)
Definition no_kubeconfig_stub : stub :=
  {| kubeconfig_present := false;
     stub_deployments := [];
     stub_pods := [];
     failing_pods := [];
     patch_failures := 0;
     stub_clock := sample_clock |}.

(** ** Reading events

    The arguments and outcome of an event, when it is the call asked for.
    Equal events have equal observations, which is how the proofs read an
    event found in a history. *)

Definition seen_isfile (ev : event) : option (string * outcome bool) :=
  match ev with
  | EvCall c r =>
      match c in call T return outcome T -> option (string * outcome bool) with
      | os_path_isfile path => fun r => Some (path, r)
      | _ => fun _ => None
      end r
  | EvPrint _ => None
  end.

Definition seen_read (ev : event)
    : option (string * string * outcome V1Deployment) :=
  match ev with
  | EvCall c r =>
      match c in call T return outcome T -> option _ with
      | read_namespaced_deployment n ns => fun r => Some (n, ns, r)
      | _ => fun _ => None
      end r
  | EvPrint _ => None
  end.

Definition seen_patch (ev : event)
    : option (string * string * pyval * outcome V1Deployment) :=
  match ev with
  | EvCall c r =>
      match c in call T return outcome T -> option _ with
      | patch_namespaced_deployment n ns body => fun r => Some (n, ns, body, r)
      | _ => fun _ => None
      end r
  | EvPrint _ => None
  end.

Definition seen_list_pods (ev : event)
    : option (string * option string * outcome (list V1Pod)) :=
  match ev with
  | EvCall c r =>
      match c in call T return outcome T -> option _ with
      | list_namespaced_pod ns sel => fun r => Some (ns, sel, r)
      | _ => fun _ => None
      end r
  | EvPrint _ => None
  end.

Definition seen_list_deployments (ev : event)
    : option (string * outcome (list V1Deployment)) :=
  match ev with
  | EvCall c r =>
      match c in call T return outcome T -> option _ with
      | list_namespaced_deployment ns => fun r => Some (ns, r)
      | _ => fun _ => None
      end r
  | EvPrint _ => None
  end.

Definition seen_log (ev : event)
    : option (string * string * Z * option Z * outcome string) :=
  match ev with
  | EvCall c r =>
      match c in call T return outcome T -> option _ with
      | read_namespaced_pod_log n ns since tail =>
          fun r => Some (n, ns, since, tail, r)
      | _ => fun _ => None
      end r
  | EvPrint _ => None
  end.

(** The exception of an event that raised. *)
Definition seen_raise (ev : event) : option exn :=
  match ev with
  | EvCall _ (Err e) => Some e
  | _ => None
  end.

(** [os.path.isfile] answered that there is no kubeconfig file. *)
Definition kubeconfig_missing (ev : event) : bool :=
  match seen_isfile ev with
  | Some (_, Ok false) => true
  | _ => false
  end.

(** The run met an error: a call raised, or the kubeconfig file is missing. *)
Definition errored (h : history) : bool :=
  existsb (fun ev => raised ev || kubeconfig_missing ev) h.

(** ** Notions the claims are stated with *)

(** What a pod's entry in ["logs"] is made of: the text of its log, or the
    error of its read.  No entry is made for any other exception. *)
Definition entry_of (reply : outcome string) : option string :=
  match reply with
  | Ok text => Some text
  | Err (ApiException _ e) => Some (log_error_entry e)
  | Err (OtherException _) => None
  end.

(** The event is the log read of [pod] with the given window, and it made an
    entry. *)
Definition fetched (namespace : string) (since_seconds : Z)
    (tail_lines : option Z) (pod : V1Pod) (ev : event) : Prop :=
  exists reply entry,
    ev = EvCall (read_namespaced_pod_log (name (pod_metadata pod)) namespace
                   since_seconds tail_lines) reply
    /\ entry_of reply = Some entry.

(** The ways a restart or a log fetch fails, each with its message. *)
Inductive failure (deployment_name namespace : string) (h : history)
    : string -> Prop :=
| kubeconfig_not_found :
    In (EvCall (os_path_isfile KUBECONFIG_PATH) (Ok false)) h ->
    failure deployment_name namespace h kubeconfig_not_found_message
| deployment_not_found {X : Type} (c : call X) (e : string) :
    In (EvCall c (Err (ApiException (Some 404) e))) h ->
    failure deployment_name namespace h
      (deployment_not_found_message deployment_name namespace)
| api_error {X : Type} (c : call X) (st : option Z) (e : string) :
    st <> Some 404 ->
    In (EvCall c (Err (ApiException st e))) h ->
    failure deployment_name namespace h (api_error_message e)
| other_error {X : Type} (c : call X) (e : exn) :
    In (EvCall c (Err e)) h ->
    failure deployment_name namespace h (error_message e)
| attribute_error (deployment : V1Deployment) (e : exn) :
    In (EvCall (read_namespaced_deployment deployment_name namespace)
          (Ok deployment)) h ->
    selector_items deployment = Raise e ->
    failure deployment_name namespace h (error_message e)
| no_pods_found (label_selector : option string) :
    In (EvCall (list_namespaced_pod namespace label_selector) (Ok [])) h ->
    failure deployment_name namespace h
      (no_pods_message deployment_name namespace).

(** The value under a path of keys in a nested dict. *)
Fixpoint assoc (key : string) (items : list (string * pyval)) : option pyval :=
  match items with
  | [] => None
  | (k, v) :: rest => if String.eqb k key then Some v else assoc key rest
  end.

Fixpoint pyval_get (path : list string) (v : pyval) : option pyval :=
  match path with
  | [] => Some v
  | key :: rest =>
      match v with
      | PDict items =>
          match assoc key items with
          | Some v' => pyval_get rest v'
          | None => None
          end
      | PStr _ => None
      end
  end.

(** The invariant of Python's [datetime] class ([day] is further bounded by
    the length of the month). *)
Definition valid_datetime (dt : datetime) : Prop :=
  1 <= year dt <= 9999 /\ 1 <= month dt <= 12 /\ 1 <= day dt <= 31
  /\ 0 <= hour dt <= 23 /\ 0 <= minute dt <= 59 /\ 0 <= second dt <= 59
  /\ 0 <= microsecond dt <= 999999.

(** The clock hands out datetimes only. *)
Definition clock_valid (env : environment) : Prop :=
  forall h dt, env _ h datetime_utcnow = Ok dt -> valid_datetime dt.

Definition is_digit (a : ascii) : bool :=
  (48 <=? nat_of_ascii a)%nat && (nat_of_ascii a <=? 57)%nat.

Definition digit_val (a : ascii) : Z := Z.of_nat (nat_of_ascii a) - 48.

Definition two_digits (a b : ascii) : Z := 10 * digit_val a + digit_val b.

(** [time-secfrac] and the offset ["Z"] (RFC 3339, section 5.6): nothing, or
    a dot and at least one digit, then ["Z"]. *)
Definition rfc3339_fraction_and_zulu (rest : list ascii) : bool :=
  match rest with
  | [z] => Ascii.eqb z "Z"
  | dot :: frac =>
      Ascii.eqb dot "."
      && match rev frac with
         | z :: d :: digits =>
             Ascii.eqb z "Z" && forallb is_digit (d :: digits)
         | _ => false
         end
  | [] => false
  end.

(** An RFC 3339 [date-time] in UTC:
    [4DIGIT "-" 2DIGIT "-" 2DIGIT "T" 2DIGIT ":" 2DIGIT ":" 2DIGIT
     ["." 1*DIGIT] "Z"], with month, day, hour, minute and second in range. *)
Definition rfc3339_utc (s : string) : bool :=
  match list_ascii_of_string s with
  | y1 :: y2 :: y3 :: y4 :: c1 :: m1 :: m2 :: c2 :: d1 :: d2 :: c3
    :: h1 :: h2 :: c4 :: mi1 :: mi2 :: c5 :: s1 :: s2 :: rest =>
      forallb is_digit
        [y1; y2; y3; y4; m1; m2; d1; d2; h1; h2; mi1; mi2; s1; s2]
      && Ascii.eqb c1 "-" && Ascii.eqb c2 "-" && Ascii.eqb c3 "T"
      && Ascii.eqb c4 ":" && Ascii.eqb c5 ":"
      && (1 <=? two_digits m1 m2) && (two_digits m1 m2 <=? 12)
      && (1 <=? two_digits d1 d2) && (two_digits d1 d2 <=? 31)
      && (two_digits h1 h2 <=? 23) && (two_digits mi1 mi2 <=? 59)
      && (two_digits s1 s2 <=? 60)
      && rfc3339_fraction_and_zulu rest
  | _ => false
  end.

(** The healthy flag as the specification derives it, from the counts of the
    snapshot: [ready == desired && available == desired]. *)
Definition healthy_as_specified (info : DeploymentInfo.t) : bool :=
  bool_decide (Some (DeploymentInfo.ready_replicas info)
               = DeploymentInfo.total_replicas info)
  && bool_decide (Some (DeploymentInfo.available_replicas info)
                  = DeploymentInfo.total_replicas info).

(** The counts of a deployment as the loop of [list_deployments_in_namespace]
    reads them, before [or 0] is applied. *)
Definition desired_of (d : V1Deployment) : option Z :=
  match spec d with Some sp => replicas sp | None => Some 0 end.

Definition ready_of (d : V1Deployment) : option Z :=
  match status d with Some st => ready_replicas st | None => Some 0 end.

Definition available_of (d : V1Deployment) : option Z :=
  match status d with Some st => available_replicas st | None => Some 0 end.

(** ** Concurrent requests

    Two requests run as two threads against one cluster.  A thread is
    suspended at its calls only, so a step of a thread is one call (or one
    printed line); the schedule says which thread moves next ([true] for the
    first), and a thread that has returned stays where it is. *)

Definition step {A : Type} (env : environment) (m : prog A) (h : history)
    : prog A * history :=
  match m with
  | Ret _ | Raise _ => (m, h)
  | Print line k => (k, h ++ [EvPrint line])
  | Call c k => let r := env _ h c in (k r, h ++ [EvCall c r])
  end.

Fixpoint run2 {A : Type} (env : environment) (schedule : list bool)
    (m1 m2 : prog A) (h : history) : prog A * prog A * history :=
  match schedule with
  | [] => (m1, m2, h)
  | true :: rest =>
      let '(m1', h') := step env m1 h in run2 env rest m1' m2 h'
  | false :: rest =>
      let '(m2', h') := step env m2 h in run2 env rest m1 m2' h'
  end.

(** The thread has come to its end. *)
Definition finished {A : Type} (m : prog A) : bool :=
  match m with
  | Ret _ | Raise _ => true
  | _ => false
  end.

(** A cluster on which nothing a restart of [n] in [ns] asks for fails. *)
Definition acknowledges (env : environment) (n ns : string) : Prop :=
  forall h,
    env _ h (os_path_isfile KUBECONFIG_PATH) = Ok true
    /\ env _ h (load_kube_config KUBECONFIG_PATH) = Ok tt
    /\ (exists d, env _ h (read_namespaced_deployment n ns) = Ok d)
    /\ (exists dt, env _ h datetime_utcnow = Ok dt)
    /\ (forall body, exists d,
          env _ h (patch_namespaced_deployment n ns body) = Ok d).

(** On every answer the environment can give, the thread issues [patches]
    more patch calls and returns a result that satisfies [Q], and it does so
    within [steps] steps. *)
Inductive succeeds (env : environment) (Q : Result.t -> Prop)
    : nat -> nat -> prog Result.t -> Prop :=
| succeeds_ret (res : Result.t) :
    Q res -> succeeds env Q 0 0 (Ret res)
| succeeds_print (patches steps : nat) (line : string) (k : prog Result.t) :
    succeeds env Q patches steps k ->
    succeeds env Q patches (S steps) (Print line k)
| succeeds_patch (patches steps : nat) {X : Type} (c : call X)
    (k : outcome X -> prog Result.t) :
    (forall r, is_patch_call (EvCall c r) = true) ->
    (forall h, succeeds env Q patches steps (k (env X h c))) ->
    succeeds env Q (S patches) (S steps) (Call c k)
| succeeds_call (patches steps : nat) {X : Type} (c : call X)
    (k : outcome X -> prog Result.t) :
    (forall r, is_patch_call (EvCall c r) = false) ->
    (forall h, succeeds env Q patches steps (k (env X h c))) ->
    succeeds env Q patches (S steps) (Call c k).

(** The number of turns of a thread in a schedule. *)
Definition turns (thread : bool) (schedule : list bool) : nat :=
  length (List.filter (Bool.eqb thread) schedule).

(** The program a thread has come to when it ended with [r]. *)
Definition ended {A : Type} (r : outcome A) : prog A :=
  match r with
  | Ok a => Ret a
  | Err e => Raise e
  end.

(** The first thread runs up to its read of the deployment, the second
    thread runs to its end, and the first thread then issues its patch. *)
Definition overlapping_schedule : list bool :=
  [true; true; true; false; false; false; false; false; true; true].

Definition first_char (s : string) : option ascii :=
  match s with
  | String a _ => Some a
  | EmptyString => None
  end.

Definition pod_name (pod : V1Pod) : string := name (pod_metadata pod).

(** The entry of [list_deployments_in_namespace] for a deployment, field by
    field (the images and the age apart). *)
Definition snapshot (d : V1Deployment) (info : DeploymentInfo.t) : Prop :=
  DeploymentInfo.name info = name (metadata d)
  /\ DeploymentInfo.total_replicas info = desired_of d
  /\ DeploymentInfo.ready_replicas info = or_zero (ready_of d)
  /\ DeploymentInfo.available_replicas info = or_zero (available_of d)
  /\ DeploymentInfo.up_to_date_replicas info
     = or_zero (match status d with
                | Some st => updated_replicas st
                | None => Some 0
                end)
  /\ DeploymentInfo.image info = images_of d.

(** ** More observations on histories *)

(** The lines a run printed, oldest first. *)
Definition printed (h : history) : list string :=
  flat_map (fun ev => match ev with
                      | EvPrint line => [line]
                      | EvCall _ _ => []
                      end) h.

(** A deployment whose selector has match expressions only. *)
Definition expressions_only_deployment (n : string) : V1Deployment :=
  {| metadata := {| name := n; creation_timestamp := None |};
     spec := Some {| replicas := Some 1;
                     selector := Some {| match_labels := None |};
                     template := None |};
     status := None |}.

Definition expressions_only_stub : stub :=
  {| kubeconfig_present := true;
     stub_deployments := [expressions_only_deployment "checkout"];
     stub_pods := [sample_pod "checkout-a"];
     failing_pods := [];
     patch_failures := 0;
     stub_clock := sample_clock |}.

(** The sample cluster, but the connection breaks while the log of
    [checkout-b] is read. *)
Definition broken_connection_env : environment :=
  fun X h c =>
    match c in call T return outcome T with
    | read_namespaced_pod_log "checkout-b" _ _ _ =>
        Err (OtherException "Read timed out.")
    | c' => stub_env sample_stub _ h c'
    end.

(** One microsecond after the sample clock. *)
Definition next_clock : datetime :=
  {| year := 2024; month := 5; day := 17;
     hour := 9; minute := 3; second := 41; microsecond := 250001 |}.

(** ** The agent's side: [utils.py] and the response loop of [agentDraft1.py] *)

(** The Python values a response of the agent is made of: [None], strings,
    lists, dictionaries with string keys, and objects with attributes, such
    as the messages of the agent ([class] is the name of the object's
    class). *)
#[warnings="-register-all"]
Inductive pyobj : Set :=
| PyNone
| PyStr (s : string)
| PyList (items : list pyobj)
| PyDict (items : list (string * pyobj))
| PyObject (class : string) (attrs : list (string * pyobj)).

(** [type(x).__name__] *)
Definition type_name (x : pyobj) : string :=
  match x with
  | PyNone => "NoneType"
  | PyStr _ => "str"
  | PyList _ => "list"
  | PyDict _ => "dict"
  | PyObject class _ => class
  end.

(** [bool(x)] *)
Definition truthy (x : pyobj) : bool :=
  match x with
  | PyNone => false
  | PyStr s => negb (String.eqb s "")
  | PyList items => match items with [] => false | _ :: _ => true end
  | PyDict items => match items with [] => false | _ :: _ => true end
  | PyObject _ _ => true
  end.

(** The value of a key of a dictionary, or of an attribute of an object. *)
Fixpoint lookup_key (key : string) (items : list (string * pyobj))
    : option pyobj :=
  match items with
  | [] => None
  | (k, v) :: rest => if String.eqb k key then Some v else lookup_key key rest
  end.

Definition no_attribute (x : pyobj) (attr : string) : exn :=
  OtherException ("'" +:+ type_name x +:+ "' object has no attribute '"
                  +:+ attr +:+ "'").

(** [x.get(key, default)]: only a dictionary has the method; an object
    whose attribute [get] is data cannot be called. *)
Definition py_get (x : pyobj) (key : string) (default : pyobj) : prog pyobj :=
  match x with
  | PyDict items =>
      mret (match lookup_key key items with
            | Some v => v
            | None => default
            end)
  | PyObject _ attrs =>
      match lookup_key "get" attrs with
      | Some v =>
          Raise (OtherException ("'" +:+ type_name v
                                 +:+ "' object is not callable"))
      | None => Raise (no_attribute x "get")
      end
  | _ => Raise (no_attribute x "get")
  end.

(** The last character of a string, as a string. *)
Fixpoint last_char (s : string) : string :=
  match s with
  | EmptyString => EmptyString
  | String a EmptyString => String a EmptyString
  | String _ rest => last_char rest
  end.

(** [x[-1]] *)
Definition py_last (x : pyobj) : prog pyobj :=
  match x with
  | PyList items =>
      match last items with
      | Some v => mret v
      | None => Raise (OtherException "list index out of range")
      end
  | PyStr s =>
      if String.eqb s "" then Raise (OtherException "string index out of range")
      else mret (PyStr (last_char s))
  | PyDict _ => Raise (OtherException "-1")
  | _ => Raise (OtherException ("'" +:+ type_name x
                                +:+ "' object is not subscriptable"))
  end.

(** [utils.extract_ai_message_content] *)
Definition extract_ai_message_content (response_dict : pyobj) : prog pyobj :=
  try_except
    (agent ← py_get response_dict "agent" (PyDict []);
     messages ← py_get agent "messages" (PyList []);
     if truthy messages then
       last ← py_last messages;
       match last with
       | PyObject _ attrs =>
           match lookup_key "content" attrs with
           | Some content => mret content
           | None => mret (PyStr "")
           end
       | PyDict items =>
           match lookup_key "content" items with
           | Some content => mret content
           | None => mret (PyStr "")
           end
       | _ => mret (PyStr "")
       end
     else mret (PyStr ""))
    (fun e =>
       print ("Error extracting message content: " +:+ str_exn e);;
       mret (PyStr "")).

(** The loop of [agentDraft1.py] over [reversed(chunks)], from the value of
    [final_response] so far; the chunks of the stream are dictionaries. *)
Fixpoint final_response_from (reversed_chunks : list (list (string * pyobj)))
    (final_response : pyobj) : prog pyobj :=
  match reversed_chunks with
  | [] => mret final_response
  | chunk :: rest =>
      match lookup_key "agent" chunk with
      | Some _ =>
          final_response' ← extract_ai_message_content (PyDict chunk);
          if truthy final_response' then mret final_response'
          else final_response_from rest final_response'
      | None => final_response_from rest final_response
      end
  end.

Definition final_response (chunks : list (list (string * pyobj)))
    : prog pyobj :=
  final_response_from (rev chunks) PyNone.

(** A message of the agent, and the update that carries a list of them. *)
Definition ai_message (content : string) : pyobj :=
  PyObject "AIMessage" [("content", PyStr content); ("type", PyStr "ai")].

Definition agent_update (messages : list pyobj) : list (string * pyobj) :=
  [("agent", PyDict [("messages", PyList messages)])].

Definition tools_update (messages : list pyobj) : list (string * pyobj) :=
  [("tools", PyDict [("messages", PyList messages)])].

(** An environment for code that makes no call. *)
Definition no_calls : environment :=
  fun X _ _ => Err (OtherException "no call expected").

(** What the extraction returns, whatever surrounds it: it makes no call. *)
Definition extracted (response_dict : pyobj) : pyobj :=
  match fst (run no_calls (extract_ai_message_content response_dict) []) with
  | Ok v => v
  | Err _ => PyNone
  end.

(** The update has messages of the agent with something to say. *)
Definition speaks (chunk : list (string * pyobj)) : bool :=
  match lookup_key "agent" chunk with
  | Some _ => truthy (extracted (PyDict chunk))
  | None => false
  end.

(** * Properties *)

(** ** Runs *)

Lemma run_bind {A B : Type} (env : environment) (m : prog A) (f : A -> prog B) :
  forall h,
    run env (bind m f) h =
    match run env m h with
    | (Ok a, h') => run env (f a) h'
    | (Err e, h') => (Err e, h')
    end.
Proof.
  induction m as [a | e | line k IH | X c k IH]; intros h; simpl; auto.
Qed.

Lemma run_try_except {A : Type} (env : environment) (m : prog A)
    (handler : exn -> prog A) :
  forall h,
    run env (try_except m handler) h =
    match run env m h with
    | (Ok a, h') => (Ok a, h')
    | (Err e, h') => run env (handler e) h'
    end.
Proof.
  induction m as [a | e | line k IH | X c k IH]; intros h; simpl; auto.
Qed.

(** A run only adds to the history. *)
Lemma run_extends {A : Type} (env : environment) (m : prog A) :
  forall h r h', run env m h = (r, h') -> exists t, h' = h ++ t.
Proof.
  induction m as [a | e | line k IH | X c k IH]; intros h r h' Hrun;
    simpl in Hrun.
  - inversion Hrun; subst. exists []. now rewrite app_nil_r.
  - inversion Hrun; subst. exists []. now rewrite app_nil_r.
  - apply IH in Hrun as [t ->]. exists (EvPrint line :: t).
    now rewrite <- app_assoc.
  - apply IH in Hrun as [t ->]. eexists (_ :: t).
    now rewrite <- app_assoc.
Qed.

Lemma count_events_app (p : event -> bool) (h1 h2 : history) :
  count_events p (h1 ++ h2) = (count_events p h1 + count_events p h2)%nat.
Proof. unfold count_events. now rewrite List.filter_app, length_app. Qed.

Lemma status_is_404 (st : option Z) : status_is st 404 = true <-> st = Some 404.
Proof.
  destruct st as [s |]; simpl; [| split; discriminate].
  rewrite Z.eqb_eq. split; [now intros -> | now intros [= ->]].
Qed.

Lemma status_is_not_404 (st : option Z) :
  status_is st 404 = false -> st <> Some 404.
Proof.
  intros H Hst. apply status_is_404 in Hst. congruence.
Qed.

(** Read an equation between two events through every observation. *)
Ltac observe H :=
  let go f := (let E := fresh "E" in
               pose proof (f_equal f H) as E; simpl in E;
               first [discriminate E | injection E as ? | clear E]) in
  first [ discriminate H | idtac ];
  try go seen_isfile; try go seen_read; try go seen_patch;
  try go seen_list_pods; try go seen_list_deployments; try go seen_log;
  try go seen_raise.

(** Split a membership in an explicit history into its cases. *)
Ltac inhist H :=
  simpl in H;
  repeat (destruct H as [H | H]; [observe H |]);
  try contradiction.

(** Case analysis on the answers of the environment, in the order in which a
    run asks for them. *)
Ltac answers env :=
  repeat (simpl;
    match goal with
    | |- context [env ?X ?h ?c] =>
        let E := fresh "Ans" in
        destruct (env X h c) as [? | [? ? | ?]] eqn:E
    | |- context [status_is ?st ?code] =>
        let E := fresh "St" in destruct (status_is st code) eqn:E
    | |- context [negb ?b] => destruct b
    end);
  simpl.

Ltac unfold_tool :=
  unfold invoke, try_except_api, mbind, prog_bind, mret, prog_ret, print.

#[local] Arguments restart_initiated_message : simpl never.
#[local] Arguments deployment_not_found_message : simpl never.
#[local] Arguments api_error_message : simpl never.
#[local] Arguments error_message : simpl never.
#[local] Arguments no_pods_message : simpl never.
#[local] Arguments retrieved_logs_message : simpl never.
#[local] Arguments kubeconfig_not_found_message : simpl never.
#[local] Arguments log_error_entry : simpl never.
#[local] Arguments namespace_not_found_message : simpl never.
#[local] Arguments KUBECONFIG_PATH : simpl never.
#[local] Arguments isoformat : simpl never.
#[local] Arguments patch_body : simpl never.
#[local] Arguments fetch_logs : simpl never.
#[local] Arguments deployment_infos : simpl never.
#[local] Arguments selector_items : simpl never.

(** ** Restart *)

(** C7. With the kubeconfig file found and loaded: when the cluster answers
    the read of the deployment with status 404, the restart returns the
    failure "Deployment ... not found ..." and stops there, with no patch
    call; when the cluster answers the read with the deployment, whatever
    it looks like, a replica count of 0 included, the restart reads the
    clock, sends the patch for that deployment, and, the patch being
    acknowledged, returns the success. *)
Theorem restart_not_found_or_acknowledged (env : environment) (n ns : string) :
  let found := EvCall (os_path_isfile KUBECONFIG_PATH) (Ok true) in
  let loaded := EvCall (load_kube_config KUBECONFIG_PATH) (Ok tt) in
  env _ [] (os_path_isfile KUBECONFIG_PATH) = Ok true ->
  env _ [found] (load_kube_config KUBECONFIG_PATH) = Ok tt ->
  (forall e,
     env _ [found; loaded] (read_namespaced_deployment n ns)
     = Err (ApiException (Some 404) e) ->
     run env (rollout_restart_deployment n ns) []
     = (Ok (restart_result false (deployment_not_found_message n ns) n ns),
        [found; loaded;
         EvCall (read_namespaced_deployment n ns)
           (Err (ApiException (Some 404) e))]))
  /\ (forall d dt reply,
        let read := EvCall (read_namespaced_deployment n ns) (Ok d) in
        let clock := EvCall datetime_utcnow (Ok dt) in
        let body := patch_body (isoformat dt +:+ "Z") in
        env _ [found; loaded] (read_namespaced_deployment n ns) = Ok d ->
        env _ [found; loaded; read] datetime_utcnow = Ok dt ->
        env _ [found; loaded; read; clock]
          (patch_namespaced_deployment n ns body) = Ok reply ->
        run env (rollout_restart_deployment n ns) []
        = (Ok (restart_result true (restart_initiated_message n ns) n ns),
           [found; loaded; read; clock;
            EvCall (patch_namespaced_deployment n ns body) (Ok reply)])).
Proof.
  intros found loaded Hfound Hloaded. subst found loaded. split.
  - intros e Hread.
    unfold rollout_restart_deployment; unfold_tool.
    simpl. rewrite Hfound. simpl. rewrite Hloaded. simpl.
    rewrite Hread. reflexivity.
  - intros d dt reply read clock body Hread Hclock Hpatch.
    subst read clock body.
    unfold rollout_restart_deployment; unfold_tool.
    simpl. rewrite Hfound. simpl. rewrite Hloaded. simpl.
    rewrite Hread. simpl. rewrite Hclock. simpl. rewrite Hpatch. reflexivity.
Qed.

Lemma restart_zero_replicas_acknowledged :
  spec (sample_deployment "checkout" (Some 0) None)
  = Some {| replicas := Some 0;
            selector := Some {| match_labels := Some [("app", "checkout")] |};
            template := Some {| template_spec :=
              Some {| containers := [{| container_image := "nginx:1.25" |}] |} |} |}
  /\ fst (run (stub_env scaled_to_zero_stub)
            (rollout_restart_deployment "checkout" "default") [])
     = Ok (restart_result true (restart_initiated_message "checkout" "default")
             "checkout" "default")
  /\ count_events is_patch_call
       (snd (run (stub_env scaled_to_zero_stub)
               (rollout_restart_deployment "checkout" "default") [])) = 1%nat.
Proof.
  split; [reflexivity |].
  rewrite (proj2 (restart_not_found_or_acknowledged
                    (stub_env scaled_to_zero_stub) "checkout" "default"
                    eq_refl eq_refl)
             (sample_deployment "checkout" (Some 0) None) sample_clock
             (sample_deployment "checkout" (Some 0) None)
             eq_refl eq_refl eq_refl).
  split; reflexivity.
Defined.

(** *** The timestamp *)

#[local] Arguments digit_char : simpl never.

Lemma is_digit_char (d : Z) : 0 <= d < 10 -> is_digit (digit_char d) = true.
Proof.
  intros Hd. unfold is_digit, digit_char.
  rewrite nat_ascii_embedding by lia.
  apply andb_true_intro; split; apply Nat.leb_le; lia.
Qed.

Lemma digit_val_char (d : Z) : 0 <= d < 10 -> digit_val (digit_char d) = d.
Proof.
  intros Hd. unfold digit_val, digit_char.
  rewrite nat_ascii_embedding by lia. lia.
Qed.

Lemma is_digit_mod (n : Z) : is_digit (digit_char (n mod 10)) = true.
Proof. apply is_digit_char, Z.mod_pos_bound. lia. Qed.

Lemma two_digits_char (n : Z) :
  0 <= n < 100 ->
  two_digits (digit_char (n / 10 mod 10)) (digit_char (n mod 10)) = n.
Proof.
  intros Hn. unfold two_digits.
  rewrite !digit_val_char by (apply Z.mod_pos_bound; lia).
  rewrite (Z.mod_small (n / 10)) by (split; [apply Z.div_pos | apply Z.div_lt_upper_bound]; lia).
  pose proof (Z.div_mod n 10). lia.
Qed.

(** [utcnow().isoformat() + "Z"] is an RFC 3339 timestamp in UTC. *)
Lemma isoformat_rfc3339 (dt : datetime) :
  valid_datetime dt -> rfc3339_utc (isoformat dt +:+ "Z") = true.
Proof.
  intros (Hy & Hm & Hd & Hh & Hmi & Hs & Hus).
  unfold isoformat, rfc3339_utc, zfill.
  destruct (microsecond dt =? 0);
    cbv -[digit_char Z.div Z.modulo is_digit two_digits Z.leb andb
          year month day hour minute second microsecond];
    rewrite !is_digit_mod, !two_digits_char by lia;
    repeat (apply andb_true_intro; split); try reflexivity;
    apply Z.leb_le; lia.
Qed.

(** C8. A restart that succeeds has patched the deployment with a body
    that holds, under [spec.template.metadata.annotations] and the key
    [kubectl.kubernetes.io/restartedAt], the time of the call as an RFC 3339
    timestamp in UTC. *)
Theorem restart_writes_restarted_at (env : environment) (n ns : string)
    (res : Result.t) (h' : history) :
  clock_valid env ->
  run env (rollout_restart_deployment n ns) [] = (Ok res, h') ->
  Result.success res = true ->
  exists body now reply,
    In (EvCall (patch_namespaced_deployment n ns body) (Ok reply)) h'
    /\ pyval_get ["spec"; "template"; "metadata"; "annotations";
                  "kubectl.kubernetes.io/restartedAt"] body = Some (PStr now)
    /\ rfc3339_utc now = true.
Proof.
  intros Hclock. unfold rollout_restart_deployment; unfold_tool.
  answers env; intros [= <- <-] Hsuccess; try discriminate Hsuccess.
  match goal with
  | H : env _ _ datetime_utcnow = Ok ?dt |- _ =>
      apply Hclock in H;
      exists (patch_body (isoformat dt +:+ "Z")), (isoformat dt +:+ "Z")
  end.
  eexists. split; [simpl; eauto 10 |].
  split; [reflexivity | now apply isoformat_rfc3339].
Qed.

Lemma sample_clock_valid (s : stub) :
  stub_clock s = sample_clock -> clock_valid (stub_env s).
Proof.
  intros Hclock h dt. simpl. rewrite Hclock. intros [= <-].
  unfold valid_datetime; simpl; lia.
Qed.

Lemma restart_writes_restarted_at_sample :
  exists body now reply,
    In (EvCall (patch_namespaced_deployment "checkout" "default" body)
          (Ok reply))
      (snd (run (stub_env sample_stub)
              (rollout_restart_deployment "checkout" "default") []))
    /\ pyval_get ["spec"; "template"; "metadata"; "annotations";
                  "kubectl.kubernetes.io/restartedAt"] body = Some (PStr now)
    /\ rfc3339_utc now = true.
Proof.
  destruct (run (stub_env sample_stub)
              (rollout_restart_deployment "checkout" "default") [])
    as [r h'] eqn:Hrun.
  vm_compute in Hrun. injection Hrun as <- <-.
  exact (restart_writes_restarted_at (stub_env sample_stub)
           "checkout" "default" _ _
           (sample_clock_valid sample_stub eq_refl) eq_refl eq_refl).
Defined.

(** C2, as the code has it.  A restart issues at most one patch call.  If
    that call raises an [ApiException] the restart is over: no second
    attempt is made, and the result is the failure that carries the error
    (the "not found" wording for status 404). *)
Theorem restart_patches_once (env : environment) (n ns : string)
    (r : outcome Result.t) (h' : history) :
  run env (rollout_restart_deployment n ns) [] = (r, h') ->
  (count_events is_patch_call h' <= 1)%nat
  /\ (forall body st e,
        In (EvCall (patch_namespaced_deployment n ns body)
              (Err (ApiException st e))) h' ->
        count_events is_patch_call h' = 1%nat
        /\ r = Ok (restart_result false
                     (if status_is st 404
                      then deployment_not_found_message n ns
                      else api_error_message e) n ns)).
Proof.
  unfold rollout_restart_deployment; unfold_tool.
  answers env; intros [= <- <-];
    (split;
     [ unfold count_events; simpl; lia
     | intros body st e Hin; inhist Hin; subst;
       match goal with H : status_is _ _ = _ |- _ => rewrite H end;
       split; reflexivity ]).
Qed.

Lemma restart_patches_once_flaky :
  let out := run (stub_env flaky_stub)
               (rollout_restart_deployment "checkout" "default") [] in
  count_events is_patch_call (snd out) = 1%nat
  /\ fst out = Ok (restart_result false
                     (api_error_message "(500) Reason: Internal Server Error")
                     "checkout" "default").
Proof.
  destruct (run (stub_env flaky_stub)
              (rollout_restart_deployment "checkout" "default") [])
    as [r h'] eqn:Hrun.
  destruct (restart_patches_once _ _ _ _ _ Hrun) as [_ Hfail].
  vm_compute in Hrun. injection Hrun as <- <-.
  simpl. eapply (Hfail _ (Some 500)). simpl. eauto 10.
Defined.

(** The stub of the retry test, between its third patch call and after,
    acknowledges; the restart never gets there. *)
Lemma restart_does_not_retry :
  let out := run (stub_env flaky_stub)
               (rollout_restart_deployment "checkout" "default") [] in
  (forall h body,
     (2 <= count_events is_patch_call h)%nat ->
     exists d, stub_env flaky_stub _ h
                 (patch_namespaced_deployment "checkout" "default" body) = Ok d)
  /\ count_events is_patch_call (snd out) = 1%nat
  /\ exists res, fst out = Ok res /\ Result.success res = false.
Proof.
  split.
  - intros h body Hcount. simpl.
    destruct (Nat.ltb_spec (count_events is_patch_call h) 2); [lia |].
    eexists; reflexivity.
  - split; [reflexivity |]. eexists; split; reflexivity.
Qed.

(** The messages of the failures start differently. *)
Lemma failure_messages_distinct (n ns e : string) (x : exn) :
  List.NoDup
    [kubeconfig_not_found_message; deployment_not_found_message n ns;
     api_error_message e; error_message x; no_pods_message n ns].
Proof.
  apply List.NoDup_map_inv with (f := first_char). simpl.
  repeat constructor; simpl; intuition discriminate.
Qed.

Lemma restart_returns (env : environment) (n ns : string) :
  exists res h',
    run env (rollout_restart_deployment n ns) [] = (Ok res, h')
    /\ (Result.success res = true -> errored h' = false)
    /\ (Result.success res = false -> failure n ns h' (Result.message res)).
Proof.
  unfold rollout_restart_deployment; unfold_tool.
  answers env; eexists _, _; (split; [reflexivity |]); simpl;
    (split; [intros Hs; try discriminate Hs; reflexivity |]);
    intros Hs; try discriminate Hs;
    repeat match goal with
           | H : status_is _ 404 = true |- _ => apply status_is_404 in H; subst
           | H : status_is _ 404 = false |- _ => apply status_is_not_404 in H
           end.
  all: first
    [ eapply kubeconfig_not_found; simpl; now eauto 10
    | eapply deployment_not_found; simpl; now eauto 10
    | eapply api_error; [eassumption | simpl; now eauto 10]
    | eapply other_error; simpl; now eauto 10 ].
Qed.

(** ** Logs *)

Lemma selector_items_cases (d : V1Deployment) :
  (exists labels, selector_items d = Ret labels)
  \/ (exists e, selector_items d = Raise (OtherException e)).
Proof.
  unfold selector_items.
  destruct (spec d) as [sp |]; [| right; eexists; reflexivity].
  destruct (selector sp) as [sel |]; [| right; eexists; reflexivity].
  destruct (match_labels sel) as [labels |]; [| right; eexists; reflexivity].
  left; eexists; reflexivity.
Qed.

Lemma fetched_raised (ns : string) (ss : Z) (tail : option Z) (pod : V1Pod)
    (ev : event) :
  fetched ns ss tail pod ev ->
  is_log_call ev = true /\ kubeconfig_missing ev = false
  /\ (raised ev = true -> log_api_error ev = true).
Proof.
  intros (reply & entry & -> & Hentry).
  destruct reply as [text | [st e | e]]; simpl in *; try discriminate; auto.
Qed.

(** The loop over the pods: it makes one log read per pod, in order, and
    either every read made an entry, in which case every key of the
    dictionary that names a pod holds the entry of a read of that pod and
    every other key is as before, or a read raised something else than an
    [ApiException], which ends the loop with that exception. *)
Lemma fetch_logs_run (env : environment) (ns : string) (ss : Z)
    (tail : option Z) :
  forall (items : list V1Pod) (logs : gmap string string) (h : history)
         (r : outcome (gmap string string)) (h' : history),
    run env (fetch_logs items ns ss tail logs) h = (r, h') ->
    exists t,
      h' = h ++ t
      /\ match r with
         | Ok logs' =>
             Forall2 (fetched ns ss tail) items t
             /\ forall k,
                 (exists reply entry,
                    In (EvCall (read_namespaced_pod_log k ns ss tail) reply) t
                    /\ entry_of reply = Some entry
                    /\ logs' !! k = Some entry)
                 \/ (logs' !! k = logs !! k /\ ~ In k (map pod_name items))
         | Err e =>
             exists k prefix,
               t = prefix ++ [EvCall (read_namespaced_pod_log k ns ss tail) (Err e)]
               /\ Forall (fun ev => exists pod, fetched ns ss tail pod ev) prefix
               /\ entry_of (Err e) = None
         end.
Proof.
  induction items as [| pod rest IH]; intros logs h r h' Hrun.
  - inversion Hrun; subst. exists []. rewrite app_nil_r. split; [reflexivity |].
    split; [constructor |]. intros k. right. split; [reflexivity | intros []].
  - unfold fetch_logs in Hrun; fold fetch_logs in Hrun.
    unfold_tool. simpl in Hrun.
    set (c := read_namespaced_pod_log (name (pod_metadata pod)) ns ss tail) in *.
    destruct (env _ h c) as [text | [st e | e]] eqn:Hreply; simpl in Hrun.
    + apply IH in Hrun as (t & -> & Hr).
      exists (EvCall c (Ok text) :: t). rewrite <- app_assoc. split; [reflexivity |].
      destruct r as [logs' | e].
      * destruct Hr as [Hall Hkeys]. split.
        { constructor; [| exact Hall]. exists (Ok text), text. split; reflexivity. }
        intros k. destruct (Hkeys k) as [(reply & entry & Hin & He & Hk) | [Hk Hnot]].
        { left. exists reply, entry. split; [right; exact Hin | split; assumption]. }
        destruct (decide (pod_name pod = k)) as [<- | Hne].
        { left. exists (Ok text), text. split; [left; reflexivity |].
          split; [reflexivity |]. rewrite Hk. apply lookup_insert_eq. }
        right. split.
        { rewrite Hk. now apply lookup_insert_ne. }
        simpl. intros [? | ?]; contradiction.
      * destruct Hr as (k & prefix & -> & Hpre & Hnone).
        exists k, (EvCall c (Ok text) :: prefix). split; [reflexivity |].
        split; [| exact Hnone]. constructor; [| exact Hpre].
        exists pod, (Ok text), text. split; reflexivity.
    + apply IH in Hrun as (t & -> & Hr).
      exists (EvCall c (Err (ApiException st e)) :: t). rewrite <- app_assoc.
      split; [reflexivity |].
      destruct r as [logs' | e'].
      * destruct Hr as [Hall Hkeys]. split.
        { constructor; [| exact Hall].
          exists (Err (ApiException st e)), (log_error_entry e). split; reflexivity. }
        intros k. destruct (Hkeys k) as [(reply & entry & Hin & He & Hk) | [Hk Hnot]].
        { left. exists reply, entry. split; [right; exact Hin | split; assumption]. }
        destruct (decide (pod_name pod = k)) as [<- | Hne].
        { left. exists (Err (ApiException st e)), (log_error_entry e).
          split; [left; reflexivity |].
          split; [reflexivity |]. rewrite Hk. apply lookup_insert_eq. }
        right. split.
        { rewrite Hk. now apply lookup_insert_ne. }
        simpl. intros [? | ?]; contradiction.
      * destruct Hr as (k & prefix & -> & Hpre & Hnone).
        exists k, (EvCall c (Err (ApiException st e)) :: prefix).
        split; [reflexivity |].
        split; [| exact Hnone]. constructor; [| exact Hpre].
        exists pod, (Err (ApiException st e)), (log_error_entry e).
        split; reflexivity.
    + inversion Hrun; subst.
      exists [EvCall c (Err (OtherException e))]. split; [reflexivity |].
      exists (name (pod_metadata pod)), []. split; [reflexivity |].
      split; [constructor | reflexivity].
Qed.

Lemma fetched_events (ns : string) (ss : Z) (tail : option Z)
    (items : list V1Pod) (t : history) :
  Forall2 (fetched ns ss tail) items t ->
  (forall ev, In ev t -> exists pod, In pod items /\ fetched ns ss tail pod ev)
  /\ List.filter is_log_call t = t.
Proof.
  induction 1 as [| pod ev items t Hev Hall [IHin IHfilter]].
  - split; [intros ev [] | reflexivity].
  - split.
    + intros ev' [<- | Hin].
      * exists pod. split; [left; reflexivity | exact Hev].
      * destruct (IHin _ Hin) as (pod' & Hpod & Hf).
        exists pod'. split; [right; exact Hpod | exact Hf].
    + simpl. destruct (fetched_raised _ _ _ _ _ Hev) as [-> _].
      now rewrite IHfilter.
Qed.

(** The exit paths of a log fetch: the answers before the loop over the
    pods, then the loop as [fetch_logs_run] describes it. *)
Ltac logs_cases env :=
  unfold get_deployment_logs; unfold_tool;
  answers env;
  try match goal with
      | |- context [selector_items ?d] =>
          let Hsel := fresh "Hsel" in
          destruct (selector_items_cases d) as [[? Hsel] | [? Hsel]];
          rewrite Hsel
      end;
  answers env;
  try match goal with
      | |- context [fetch_logs ?pods] =>
          let Hloop := fresh "Hloop" in
          let pod := fresh "pod" in
          let rest := fresh "rest" in
          destruct pods as [| pod rest]; cbv beta iota;
          [ simpl
          | rewrite !run_try_except, run_bind;
            match goal with
            | |- context [run env (fetch_logs ?ps ?ns ?ss ?tl ?d) ?h] =>
                let h'' := fresh "h''" in
                let e := fresh "e" in
                let Hall := fresh "Hall" in
                let Hkeys := fresh "Hkeys" in
                let Hnone := fresh "Hnone" in
                let Hpre := fresh "Hpre" in
                destruct (run env (fetch_logs ps ns ss tl d) h)
                  as [[? | e] h''] eqn:Hloop;
                apply fetch_logs_run in Hloop;
                destruct Hloop as (? & -> & Hloop);
                [ destruct Hloop as [Hall Hkeys]
                | destruct Hloop as (? & ? & -> & Hpre & Hnone);
                  destruct e as [? ? | ?]; [discriminate Hnone | clear Hnone] ];
                simpl
            end ]
      end.

(** C5. A log fetch whose listing of pods comes back empty returns the
    failure "No pods found ..." with no logs.  The listing is made for a
    deployment that was read, with the selector built from its labels. *)
Theorem logs_no_pods_found (env : environment) (n ns : string) (hours : Z)
    (tail : option Z) (r : outcome Result.t) (h' : history) :
  run env (get_deployment_logs n ns hours tail) [] = (r, h') ->
  forall label_selector,
    In (EvCall (list_namespaced_pod ns label_selector) (Ok [])) h' ->
    r = Ok (logs_result false (no_pods_message n ns) ∅ n ns)
    /\ exists deployment labels,
         In (EvCall (read_namespaced_deployment n ns) (Ok deployment)) h'
         /\ selector_items deployment = Ret labels
         /\ label_selector = Some (label_selector_of labels).
Proof.
  logs_cases env; intros [= <- <-] sel Hin; inhist Hin.
  - subst. split; [reflexivity |]. eexists _, _.
    split; [simpl; eauto 10 |]. split; [eassumption | reflexivity].
  - apply fetched_events in Hall as [Hall _].
    destruct (Hall _ Hin) as (p & _ & reply & entry & Hev & _). observe Hev.
  - apply in_app_or in Hin as [Hin | Hin]; [| inhist Hin].
    rewrite List.Forall_forall in Hpre.
    destruct (Hpre _ Hin) as (p & reply & entry & Hev & _). observe Hev.
Qed.

Lemma logs_no_pods_found_scaled_to_zero :
  fst (run (stub_env scaled_to_zero_stub)
         (get_deployment_logs "checkout" "default" 1 None) [])
  = Ok (logs_result false (no_pods_message "checkout" "default") ∅
          "checkout" "default").
Proof.
  destruct (run (stub_env scaled_to_zero_stub)
              (get_deployment_logs "checkout" "default" 1 None) [])
    as [r h'] eqn:Hrun.
  pose proof (logs_no_pods_found _ _ _ _ _ _ _ Hrun) as Hnone.
  vm_compute in Hrun. injection Hrun as <- <-.
  simpl. eapply Hnone. simpl. eauto 10.
Defined.

(** C4. When the listing of a log fetch comes back with pods, and no call
    raised anything but an [ApiException] of a pod log read, the fetch is a
    success: the log reads are exactly one per pod, in order, each in the
    namespace with [since_seconds = hours * 3600] and the [tail_lines]
    given, and every pod has its entry in ["logs"], the text of a read of
    that pod or, when the read raised, its error.  All reads may have
    raised. *)
Theorem logs_partial_failure_is_success (env : environment) (n ns : string)
    (hours : Z) (tail : option Z) (r : outcome Result.t) (h' : history) :
  run env (get_deployment_logs n ns hours tail) [] = (r, h') ->
  forall label_selector pods,
    pods <> [] ->
    In (EvCall (list_namespaced_pod ns label_selector) (Ok pods)) h' ->
    (forall ev, In ev h' -> raised ev = true -> log_api_error ev = true) ->
    exists logs,
      r = Ok (logs_result true (retrieved_logs_message (size logs) n)
                logs n ns)
      /\ Forall2 (fetched ns (hours * 3600) tail) pods
           (List.filter is_log_call h')
      /\ forall pod, In pod pods ->
           exists reply entry,
             In (EvCall (read_namespaced_pod_log (pod_name pod) ns
                           (hours * 3600) tail) reply) h'
             /\ entry_of reply = Some entry
             /\ logs !! pod_name pod = Some entry.
Proof.
  logs_cases env; intros [= <- <-] sel pods Hpods Hin Hraised.
  all: try (inhist Hin; subst; congruence).
  - (* every read made an entry *)
    destruct Hin as [Hin | [Hin | [Hin | [Hin | Hin]]]]; try (observe Hin; fail).
    + observe Hin. subst pods sel.
      eexists. split; [reflexivity |].
      destruct (fetched_events _ _ _ _ _ Hall) as [_ Hfilter].
      split; [simpl; rewrite Hfilter; exact Hall |].
      intros p Hp.
      destruct (Hkeys (pod_name p)) as [(reply & entry & Hev & He & Hk) | [_ Hnot]].
      * exists reply, entry. split; [do 4 right; exact Hev | split; assumption].
      * exfalso. apply Hnot. now apply in_map.
    + exfalso. apply fetched_events in Hall as [Hall _].
      destruct (Hall _ Hin) as (p & _ & reply & entry & Hev & _). observe Hev.
  - (* a read raised something else: not the case here *)
    exfalso.
    match goal with
    | _ : Forall _ ?prefix |- _ =>
        match type of Hraised with
        | context [prefix ++ [?ev]] =>
            assert (Hlog : log_api_error ev = true)
              by (apply Hraised;
                  [do 4 right; apply in_or_app; right; left; reflexivity
                  | reflexivity])
        end
    end.
    discriminate Hlog.
Qed.

Lemma logs_pod_b_fails :
  exists logs,
    fst (run (stub_env pod_b_fails_stub)
           (get_deployment_logs "checkout" "default" 1 None) [])
    = Ok (logs_result true (retrieved_logs_message 3 "checkout") logs
            "checkout" "default")
    /\ logs !! "checkout-a" = Some "log of checkout-a"
    /\ logs !! "checkout-b"
       = Some (log_error_entry "(500) Reason: Internal Server Error")
    /\ logs !! "checkout-c" = Some "log of checkout-c".
Proof.
  destruct (run (stub_env pod_b_fails_stub)
              (get_deployment_logs "checkout" "default" 1 None) [])
    as [r h'] eqn:Hrun.
  pose proof (logs_partial_failure_is_success _ _ _ _ _ _ _ Hrun) as Hok.
  vm_compute in Hrun. injection Hrun as <- <-.
  destruct (Hok (Some "app=checkout") (stub_pods pod_b_fails_stub))
    as (logs & Hr & _ & _).
  - discriminate.
  - simpl. do 3 right. left. reflexivity.
  - intros ev Hev Hr. inhist Hev; subst; try discriminate Hr; reflexivity.
  - pose proof (f_equal (fun o => match o with
                                  | Ok res => Result.logs res
                                  | Err _ => None
                                  end) Hr) as Hlogs.
    simpl in Hlogs. injection Hlogs as <-.
    eexists. split; [exact Hr |]. repeat split; vm_compute; reflexivity.
Defined.

Lemma logs_returns (env : environment) (n ns : string) (hours : Z)
    (tail : option Z) :
  exists res h',
    run env (get_deployment_logs n ns hours tail) [] = (Ok res, h')
    /\ (Result.success res = true ->
        forall ev, In ev h' ->
          raised ev || kubeconfig_missing ev = true ->
          log_api_error ev = true)
    /\ (Result.success res = false ->
        failure n ns h' (Result.message res) /\ Result.logs res = Some ∅).
Proof.
  logs_cases env; eexists _, _; (split; [reflexivity |]); simpl;
    (split; [intros Hs; try discriminate Hs |]);
    try (intros Hs; first [discriminate Hs | split; [| reflexivity]]);
    repeat match goal with
           | H : status_is _ 404 = true |- _ => apply status_is_404 in H; subst
           | H : status_is _ 404 = false |- _ => apply status_is_not_404 in H
           end.
  all: try first
    [ eapply kubeconfig_not_found; simpl; now eauto 10
    | eapply no_pods_found; simpl; now eauto 10
    | eapply deployment_not_found; simpl; now eauto 10
    | eapply api_error; [eassumption | simpl; now eauto 10]
    | eapply attribute_error; [simpl; now eauto 10 | eassumption]
    | eapply other_error; simpl; now eauto 10 ].
  - (* success: the only calls that raised are log reads *)
    intros ev Hev Herr.
    destruct Hev as [<- | [<- | [<- | [<- | Hev]]]]; try discriminate Herr.
    apply fetched_events in Hall as [Hall _].
    destruct (Hall _ Hev) as (p & _ & Hf).
    destruct (fetched_raised _ _ _ _ _ Hf) as (_ & Hk & Hr).
    rewrite Hk, orb_false_r in Herr. auto.
  - (* a log read raised something else *)
    eapply other_error. do 4 right. apply in_or_app. right. left. reflexivity.
Qed.

(** C3, as the code has it.  Nothing validates the arguments.  With the
    kubeconfig file in place and loaded, a log fetch and a restart go to the
    cluster with the name and the namespace as given, whatever the name, the
    hours and the tail line count are; and a run that made no network call
    is a run that found no kubeconfig file or met an exception. *)
Theorem arguments_reach_the_cluster (env : environment) (n ns : string)
    (hours : Z) (tail : option Z) :
  env _ [] (os_path_isfile KUBECONFIG_PATH) = Ok true ->
  env _ [EvCall (os_path_isfile KUBECONFIG_PATH) (Ok true)]
    (load_kube_config KUBECONFIG_PATH) = Ok tt ->
  (exists reply t,
     snd (run env (get_deployment_logs n ns hours tail) [])
     = [EvCall (os_path_isfile KUBECONFIG_PATH) (Ok true);
        EvCall (load_kube_config KUBECONFIG_PATH) (Ok tt);
        EvCall (read_namespaced_deployment n ns) reply] ++ t)
  /\ (exists reply t,
        snd (run env (rollout_restart_deployment n ns) [])
        = [EvCall (os_path_isfile KUBECONFIG_PATH) (Ok true);
           EvCall (load_kube_config KUBECONFIG_PATH) (Ok tt);
           EvCall (read_namespaced_deployment n ns) reply] ++ t).
Proof.
  intros Hfile Hload. split.
  - unfold get_deployment_logs; unfold_tool. simpl.
    rewrite Hfile. simpl. rewrite Hload. simpl.
    match goal with
    | |- context [run env ?m ?h] =>
        destruct (run env m h) as [r h'] eqn:Hrun;
        apply run_extends in Hrun as [t ->]
    end.
    eexists _, t. reflexivity.
  - unfold rollout_restart_deployment; unfold_tool. simpl.
    rewrite Hfile. simpl. rewrite Hload. simpl.
    match goal with
    | |- context [run env ?m ?h] =>
        destruct (run env m h) as [r h'] eqn:Hrun;
        apply run_extends in Hrun as [t ->]
    end.
    eexists _, t. reflexivity.
Qed.

Lemma negative_hours_reach_the_cluster :
  exists reply t,
    snd (run (stub_env sample_stub)
           (get_deployment_logs "" "default" (-1) (Some (-5))) [])
    = [EvCall (os_path_isfile KUBECONFIG_PATH) (Ok true);
       EvCall (load_kube_config KUBECONFIG_PATH) (Ok tt);
       EvCall (read_namespaced_deployment "" "default") reply] ++ t.
Proof.
  exact (proj1 (arguments_reach_the_cluster (stub_env sample_stub)
                  "" "default" (-1) (Some (-5)) eq_refl eq_refl)).
Defined.

(** The claim fails on a fetch with [hours = -1]: it is a success, and five
    calls went to the cluster, three of them log reads that ask for the last
    [-3600] seconds. *)
Lemma negative_hours_are_not_rejected :
  let out := run (stub_env sample_stub)
               (get_deployment_logs "checkout" "default" (-1) None) [] in
  (exists res, fst out = Ok res /\ Result.success res = true)
  /\ count_events is_network_call (snd out) = 5%nat
  /\ In (EvCall (read_namespaced_pod_log "checkout-a" "default" (-3600) None)
           (Ok "log of checkout-a")) (snd out).
Proof.
  split; [eexists; split; reflexivity |].
  split; [reflexivity |].
  vm_compute. do 4 right. left. reflexivity.
Qed.

(** ** Listings *)

Lemma errored_app (h1 h2 : history) :
  errored (h1 ++ h2) = errored h1 || errored h2.
Proof. unfold errored. apply existsb_app. Qed.

Lemma healthy_true (total ready available : option Z) :
  healthy total ready available = true
  <-> exists k, total = Some k /\ ready = Some k /\ available = Some k.
Proof.
  unfold healthy. rewrite !andb_true_iff, !bool_decide_eq_true. split.
  - intros [[[Hr Hrt] Ha] Hat]. destruct ready as [k |]; [| congruence].
    exists k. subst. auto.
  - intros (k & -> & -> & ->). repeat split; congruence.
Qed.

(** One turn of the loop over the deployments: it reads the clock when the
    deployment has a creation time, and makes the entry unless the clock
    raised. *)
Lemma deployment_info_of_run (env : environment) (d : V1Deployment)
    (h : history) (r : outcome DeploymentInfo.t) (h' : history) :
  run env (deployment_info_of d) h = (r, h') ->
  exists t,
    h' = h ++ t
    /\ Forall (fun ev => is_network_call ev = false) t
    /\ match r with
       | Ok info =>
           errored t = false /\ snapshot d info
           /\ DeploymentInfo.is_healthy info
              = healthy (desired_of d) (ready_of d) (available_of d)
       | Err _ => errored t = true
       end.
Proof.
  unfold deployment_info_of; unfold_tool.
  destruct (creation_timestamp (metadata d)) as [created |]; simpl.
  - destruct (env _ h datetime_now) as [now | e] eqn:Hnow; simpl;
      intros [= <- <-]; eexists; (split; [reflexivity |]);
      (split; [repeat constructor |]).
    + split; [reflexivity |]. split; [| reflexivity].
      unfold snapshot; simpl. repeat split.
    + reflexivity.
  - intros [= <- <-]. exists []. rewrite app_nil_r. split; [reflexivity |].
    split; [constructor |]. split; [reflexivity |]. split; [| reflexivity].
    unfold snapshot; simpl. repeat split.
Qed.

#[local] Arguments deployment_info_of : simpl never.

Lemma deployment_infos_run (env : environment) :
  forall (items : list V1Deployment) (h : history)
         (r : outcome (list DeploymentInfo.t)) (h' : history),
    run env (deployment_infos items) h = (r, h') ->
    exists t,
      h' = h ++ t
      /\ Forall (fun ev => is_network_call ev = false) t
      /\ match r with
         | Ok infos =>
             errored t = false
             /\ Forall2 (fun d info =>
                           snapshot d info
                           /\ DeploymentInfo.is_healthy info
                              = healthy (desired_of d) (ready_of d)
                                  (available_of d)) items infos
         | Err _ => errored t = true
         end.
Proof.
  induction items as [| d rest IH]; intros h r h' Hrun.
  - inversion Hrun; subst. exists []. rewrite app_nil_r.
    repeat split; constructor.
  - unfold deployment_infos in Hrun; fold deployment_infos in Hrun.
    unfold mbind, prog_bind, mret, prog_ret in Hrun.
    rewrite run_bind in Hrun.
    destruct (run env (deployment_info_of d) h) as [[info | e] h1] eqn:Hone;
      apply deployment_info_of_run in Hone as (t1 & -> & Hnet1 & Hone).
    + destruct Hone as (Herr1 & Hsnap & Hhealthy).
      rewrite run_bind in Hrun.
      destruct (run env (deployment_infos rest) (h ++ t1))
        as [[infos | e] h2] eqn:Hrest;
        apply IH in Hrest as (t2 & -> & Hnet2 & Hrest);
        simpl in Hrun; injection Hrun as <- <-;
        exists (t1 ++ t2); rewrite app_assoc;
        (split; [reflexivity |]); (split; [now apply Forall_app_2 |]);
        rewrite errored_app, Herr1; simpl.
      * destruct Hrest as [Herr2 Hall]. split; [exact Herr2 |].
        constructor; [split; assumption | exact Hall].
      * exact Hrest.
    + injection Hrun as <- <-. exists t1. repeat split; assumption.
Qed.

Ltac list_cases env :=
  unfold_tool; answers env;
  try match goal with
      | |- context [run env (deployment_infos ?items) ?h] =>
          idtac
      | |- context [deployment_infos ?items] =>
          rewrite !run_try_except
      end;
  try match goal with
      | |- context [run env (deployment_infos ?items) ?h] =>
          let Hloop := fresh "Hloop" in
          let h'' := fresh "h''" in
          destruct (run env (deployment_infos items) h)
            as [[? | [? ? | ?]] h''] eqn:Hloop;
          apply deployment_infos_run in Hloop;
          destruct Hloop as (? & -> & Hnet & Hloop);
          answers env
      end.

(** C10. The two listings return the empty list whenever the run met an
    error: no kubeconfig file, or a call that raised, whatever it raised.
    They return the same empty list when the cluster answers that the
    namespace holds nothing. *)
Theorem listings_empty_on_error (env : environment) (ns : string) :
  (forall r h',
     run env (list_pods_in_namespace ns) [] = (r, h') ->
     (errored h' = true -> r = Ok [])
     /\ (In (EvCall (list_namespaced_pod ns None) (Ok [])) h' -> r = Ok []))
  /\ (forall r h',
        run env (list_deployments_in_namespace ns) [] = (r, h') ->
        (errored h' = true -> r = Ok [])
        /\ (In (EvCall (list_namespaced_deployment ns) (Ok [])) h' ->
            r = Ok [])).
Proof.
  split; intros r h'.
  - unfold list_pods_in_namespace. list_cases env.
    all: intros [= <- <-]; split; [intros Herr | intros Hin];
      try reflexivity; try discriminate Herr.
    inhist Hin. subst. reflexivity.
  - unfold list_deployments_in_namespace. list_cases env.
    all: intros [= <- <-]; split; [intros Herr | intros Hin];
      try reflexivity.
    + exfalso. change (?a :: ?b :: ?c :: ?t) with ([a; b; c] ++ t) in Herr.
      rewrite errored_app in Herr. destruct Hloop as [Hloop _].
      rewrite Hloop in Herr. discriminate Herr.
    + destruct Hin as [Hin | [Hin | [Hin | Hin]]]; try (observe Hin; fail).
      * observe Hin. subst. destruct Hloop as [_ Hall].
        inversion Hall; subst. reflexivity.
      * exfalso. rewrite List.Forall_forall in Hnet.
        apply Hnet in Hin. discriminate Hin.
Qed.

Lemma listings_empty_without_kubeconfig :
  fst (run (stub_env no_kubeconfig_stub) (list_pods_in_namespace "default") [])
  = Ok []
  /\ fst (run (stub_env no_kubeconfig_stub)
            (list_deployments_in_namespace "default") [])
     = Ok []
  /\ fst (run (stub_env scaled_to_zero_stub)
            (list_pods_in_namespace "default") [])
     = Ok [].
Proof.
  split; [| split].
  - destruct (run (stub_env no_kubeconfig_stub)
                (list_pods_in_namespace "default") []) as [r h'] eqn:Hrun.
    pose proof (proj1 (listings_empty_on_error _ _) _ _ Hrun) as [Hr _].
    vm_compute in Hrun. injection Hrun as <- <-. apply Hr. reflexivity.
  - destruct (run (stub_env no_kubeconfig_stub)
                (list_deployments_in_namespace "default") [])
      as [r h'] eqn:Hrun.
    pose proof (proj2 (listings_empty_on_error _ _) _ _ Hrun) as [Hr _].
    vm_compute in Hrun. injection Hrun as <- <-. apply Hr. reflexivity.
  - destruct (run (stub_env scaled_to_zero_stub)
                (list_pods_in_namespace "default") []) as [r h'] eqn:Hrun.
    pose proof (proj1 (listings_empty_on_error _ _) _ _ Hrun) as [_ Hr].
    vm_compute in Hrun. injection Hrun as <- <-. apply Hr. simpl. eauto 10.
Defined.

(** The claim fails on a deployment scaled to zero, whose status has no
    ready and no available count: the entry shows 0 of 0 replicas ready and
    available, and is not healthy. *)
Lemma healthy_flag_differs_when_scaled_to_zero :
  exists info h',
    run (stub_env scaled_to_zero_stub)
      (list_deployments_in_namespace "default") [] = (Ok [info], h')
    /\ DeploymentInfo.ready_replicas info = 0
    /\ DeploymentInfo.total_replicas info = Some 0
    /\ DeploymentInfo.available_replicas info = 0
    /\ healthy_as_specified info = true
    /\ DeploymentInfo.is_healthy info = false.
Proof.
  eexists _, _. split; [vm_compute; reflexivity |].
  repeat split.
Qed.

Lemma Forall2_in_right {A B : Type} (P : A -> B -> Prop) (l1 : list A)
    (l2 : list B) :
  Forall2 P l1 l2 -> forall y, In y l2 -> exists x, In x l1 /\ P x y.
Proof.
  induction 1 as [| x y l1 l2 Hxy Hall IH]; intros y' Hin; [contradiction |].
  destruct Hin as [<- | Hin].
  - exists x. split; [left; reflexivity | exact Hxy].
  - destruct (IH _ Hin) as (x' & Hx' & HP).
    exists x'. split; [right; exact Hx' | exact HP].
Qed.

Lemma healthy_as_specified_agrees (d : V1Deployment) (info : DeploymentInfo.t) :
  snapshot d info ->
  ready_of d <> None -> available_of d <> None ->
  healthy (desired_of d) (ready_of d) (available_of d)
  = healthy_as_specified info.
Proof.
  intros (_ & Htotal & Hready & Havailable & _) Hr Ha.
  unfold healthy, healthy_as_specified.
  rewrite Htotal, Hready, Havailable.
  destruct (ready_of d) as [r |]; [| congruence].
  destruct (available_of d) as [a |]; [| congruence].
  simpl. repeat case_bool_decide; simpl; congruence.
Qed.

(** C9, as the code has it.  Every entry of the listing of deployments is
    the entry of a deployment the cluster listed, and its healthy flag is
    set exactly when the desired, the ready and the available count are all
    reported and equal.  When the ready and the available count are both
    reported, this is [ready == desired && available == desired] on the
    counts of the entry; a count that is not reported makes the deployment
    unhealthy, although the entry shows it as 0. *)
Theorem healthy_flag_needs_reported_counts (env : environment) (ns : string)
    (infos : list DeploymentInfo.t) (h' : history) :
  run env (list_deployments_in_namespace ns) [] = (Ok infos, h') ->
  forall info, In info infos ->
    exists items d,
      In (EvCall (list_namespaced_deployment ns) (Ok items)) h'
      /\ In d items
      /\ snapshot d info
      /\ (DeploymentInfo.is_healthy info = true
          <-> exists k, desired_of d = Some k /\ ready_of d = Some k
                        /\ available_of d = Some k)
      /\ (ready_of d <> None -> available_of d <> None ->
          DeploymentInfo.is_healthy info = healthy_as_specified info)
      /\ (ready_of d = None \/ available_of d = None ->
          DeploymentInfo.is_healthy info = false).
Proof.
  unfold list_deployments_in_namespace. list_cases env.
  all: intros [= <- <-] info Hinfo; try contradiction.
  destruct Hloop as [_ Hall].
  destruct (Forall2_in_right _ _ _ Hall _ Hinfo) as (d & Hd & Hsnap & Hhealthy).
  match goal with
  | _ : env _ _ (list_namespaced_deployment ns) = Ok ?items |- _ =>
      exists items, d
  end.
  split; [simpl; now eauto 10 |]. split; [exact Hd |]. split; [exact Hsnap |].
  rewrite Hhealthy. split; [apply healthy_true |].
  split; [now apply healthy_as_specified_agrees |].
  intros Hnone. apply not_true_is_false. rewrite healthy_true.
  intros (k & _ & Hr & Ha). destruct Hnone; congruence.
Qed.

Lemma healthy_flag_of_sample :
  exists info h',
    run (stub_env sample_stub) (list_deployments_in_namespace "default") []
    = (Ok [info], h')
    /\ DeploymentInfo.is_healthy info = healthy_as_specified info.
Proof.
  eexists _, _. split; [vm_compute; reflexivity |].
  destruct (healthy_flag_needs_reported_counts (stub_env sample_stub)
              "default" _ _ eq_refl _ (or_introl eq_refl))
    as (items & d & Hitems & Hd & _ & _ & Hagree & _).
  inhist Hitems. subst items.
  destruct Hd as [<- | []]. apply Hagree; discriminate.
Defined.

(** ** Concurrent restarts *)

(** A thread that is alone runs as [run] says. *)
Lemma run2_alone {A : Type} (env : environment) (m2 : prog A) :
  forall (m : prog A) (h : history) (r : outcome A) (h' : history),
    run env m h = (r, h') ->
    exists k, run2 env (repeat true k) m m2 h = (ended r, m2, h').
Proof.
  induction m as [a | e | line k IH | X c k IH]; intros h r h' Hrun;
    simpl in Hrun.
  - injection Hrun as <- <-. exists 0%nat. reflexivity.
  - injection Hrun as <- <-. exists 0%nat. reflexivity.
  - apply IH in Hrun as [n Hn]. exists (S n). exact Hn.
  - apply IH in Hrun as [n Hn]. exists (S n). exact Hn.
Qed.

Lemma count_events_one (p : event -> bool) (ev : event) :
  count_events p [ev] = if p ev then 1%nat else 0%nat.
Proof. unfold count_events. simpl. now destruct (p ev). Qed.

Lemma succeeds_step (env : environment) (Q : Result.t -> Prop)
    (patches steps : nat) (m : prog Result.t) (h : history) :
  succeeds env Q patches steps m ->
  exists patches',
    succeeds env Q patches' (pred steps) (fst (step env m h))
    /\ (count_events is_patch_call (snd (step env m h)) + patches'
        = count_events is_patch_call h + patches)%nat.
Proof.
  intros Hm. destruct Hm as [res HQ | p s line k Hk | p s X c k Hc Hk | p s X c k Hc Hk];
    simpl.
  - exists 0%nat. split; [now constructor | reflexivity].
  - exists p. split; [exact Hk |].
    rewrite count_events_app, count_events_one. simpl. lia.
  - exists p. split; [apply Hk |].
    rewrite count_events_app, count_events_one, Hc. lia.
  - exists p. split; [apply Hk |].
    rewrite count_events_app, count_events_one, Hc. lia.
Qed.

Lemma succeeds_done (env : environment) (Q : Result.t -> Prop)
    (patches steps : nat) (m : prog Result.t) :
  succeeds env Q patches steps m ->
  (steps = 0%nat -> finished m = true)
  /\ (finished m = true -> patches = 0%nat /\ exists res, m = Ret res /\ Q res).
Proof.
  intros Hm. destruct Hm; simpl; split; try discriminate; auto.
  intros _. split; [reflexivity |]. eauto.
Qed.

Lemma run2_succeeds (env : environment) (Q : Result.t -> Prop) :
  forall (schedule : list bool) (m1 m2 : prog Result.t) (h : history)
         (p1 s1 p2 s2 : nat) (m1' m2' : prog Result.t) (h' : history),
    succeeds env Q p1 s1 m1 ->
    succeeds env Q p2 s2 m2 ->
    run2 env schedule m1 m2 h = (m1', m2', h') ->
    exists p1' p2',
      succeeds env Q p1' (s1 - turns true schedule) m1'
      /\ succeeds env Q p2' (s2 - turns false schedule) m2'
      /\ (count_events is_patch_call h' + p1' + p2'
          = count_events is_patch_call h + p1 + p2)%nat.
Proof.
  induction schedule as [| thread rest IH];
    intros m1 m2 h p1 s1 p2 s2 m1' m2' h' H1 H2 Hrun.
  - injection Hrun as <- <- <-. exists p1, p2. unfold turns; simpl.
    rewrite !Nat.sub_0_r. auto.
  - destruct thread; simpl in Hrun.
    + destruct (succeeds_step env Q p1 s1 m1 h H1) as (q & Hq & Hcount).
      destruct (step env m1 h) as [n1 h1]. simpl in Hq, Hcount.
      destruct (IH _ _ _ _ _ _ _ _ _ _ Hq H2 Hrun) as (p1' & p2' & Ha & Hb & Hc).
      exists p1', p2'. unfold turns in *; simpl.
      replace (s1 - S (length (List.filter (Bool.eqb true) rest)))%nat
        with (pred s1 - length (List.filter (Bool.eqb true) rest))%nat by lia.
      repeat split; [exact Ha | exact Hb | lia].
    + destruct (succeeds_step env Q p2 s2 m2 h H2) as (q & Hq & Hcount).
      destruct (step env m2 h) as [n2 h2]. simpl in Hq, Hcount.
      destruct (IH _ _ _ _ _ _ _ _ _ _ H1 Hq Hrun) as (p1' & p2' & Ha & Hb & Hc).
      exists p1', p2'. unfold turns in *; simpl.
      replace (s2 - S (length (List.filter (Bool.eqb false) rest)))%nat
        with (pred s2 - length (List.filter (Bool.eqb false) rest))%nat by lia.
      repeat split; [exact Ha | exact Hb | lia].
Qed.

(** On a cluster that acknowledges, a restart is five calls, one of them the
    patch, and it returns the success. *)
Lemma restart_succeeds (env : environment) (n ns : string) :
  acknowledges env n ns ->
  succeeds env
    (fun res => res = restart_result true (restart_initiated_message n ns) n ns)
    1 5 (rollout_restart_deployment n ns).
Proof.
  intros Hack. unfold rollout_restart_deployment; unfold_tool. simpl.
  apply succeeds_call; [reflexivity |]. intros h0.
  destruct (Hack h0) as (-> & _). simpl.
  apply succeeds_call; [reflexivity |]. intros h1.
  destruct (Hack h1) as (_ & -> & _). simpl.
  apply succeeds_call; [reflexivity |]. intros h2.
  destruct (Hack h2) as (_ & _ & [d ->] & _). simpl.
  apply succeeds_call; [reflexivity |]. intros h3.
  destruct (Hack h3) as (_ & _ & _ & [dt ->] & _). simpl.
  apply succeeds_patch; [reflexivity |]. intros h4.
  destruct (Hack h4) as (_ & _ & _ & _ & Hpatch).
  destruct (Hpatch (patch_body (isoformat dt +:+ "Z"))) as [d' ->]. simpl.
  now constructor.
Qed.

(** C1, as the code has it.  Nothing keeps track of the restarts in flight.
    Two restarts of the same deployment that run concurrently on a cluster
    that acknowledges issue one patch call each, however their calls
    interleave: once both have returned, exactly two patch calls were made
    and both returned the success; and both have returned once each had
    five turns. *)
Theorem concurrent_restarts_patch_twice (env : environment) (n ns : string)
    (schedule : list bool) (m1 m2 : prog Result.t) (h' : history) :
  acknowledges env n ns ->
  run2 env schedule (rollout_restart_deployment n ns)
    (rollout_restart_deployment n ns) [] = (m1, m2, h') ->
  (count_events is_patch_call h' <= 2)%nat
  /\ (finished m1 = true -> finished m2 = true ->
      count_events is_patch_call h' = 2%nat
      /\ m1 = Ret (restart_result true (restart_initiated_message n ns) n ns)
      /\ m2 = Ret (restart_result true (restart_initiated_message n ns) n ns))
  /\ ((5 <= turns true schedule)%nat -> (5 <= turns false schedule)%nat ->
      finished m1 = true /\ finished m2 = true).
Proof.
  intros Hack Hrun.
  pose proof (restart_succeeds env n ns Hack) as Hone.
  destruct (run2_succeeds _ _ _ _ _ _ _ _ _ _ _ _ _ Hone Hone Hrun)
    as (p1 & p2 & H1 & H2 & Hcount).
  unfold count_events at 2 in Hcount. simpl in Hcount.
  apply succeeds_done in H1 as [Hend1 Hfin1].
  apply succeeds_done in H2 as [Hend2 Hfin2].
  split; [lia |]. split.
  - intros Hf1 Hf2.
    destruct (Hfin1 Hf1) as (-> & res1 & -> & ->).
    destruct (Hfin2 Hf2) as (-> & res2 & -> & ->).
    repeat split. lia.
  - intros Ht1 Ht2. split; [apply Hend1 | apply Hend2]; lia.
Qed.

Lemma sample_stub_acknowledges :
  acknowledges (stub_env sample_stub) "checkout" "default".
Proof.
  intros h. repeat split; eexists; reflexivity.
Qed.

Lemma concurrent_restarts_patch_twice_sample :
  let '(m1, m2, h') :=
    run2 (stub_env sample_stub) overlapping_schedule
      (rollout_restart_deployment "checkout" "default")
      (rollout_restart_deployment "checkout" "default") [] in
  count_events is_patch_call h' = 2%nat
  /\ m1 = Ret (restart_result true
                 (restart_initiated_message "checkout" "default")
                 "checkout" "default")
  /\ m2 = Ret (restart_result true
                 (restart_initiated_message "checkout" "default")
                 "checkout" "default").
Proof.
  destruct (run2 (stub_env sample_stub) overlapping_schedule
              (rollout_restart_deployment "checkout" "default")
              (rollout_restart_deployment "checkout" "default") [])
    as [[m1 m2] h'] eqn:Hrun.
  destruct (concurrent_restarts_patch_twice _ _ _ _ _ _ _
              sample_stub_acknowledges Hrun) as (_ & Hboth & Hturns).
  destruct (Hturns ltac:(vm_compute; lia) ltac:(vm_compute; lia)) as [Hf1 Hf2].
  exact (Hboth Hf1 Hf2).
Defined.

(** The claim fails on the overlapping schedule: while the first restart is
    in flight, between its read of the deployment and its patch, the second
    restart runs from its first call to its last.  Both patch the
    deployment and both return the success; none is turned away. *)
Lemma concurrent_restart_is_not_rejected :
  let '(m1, m2, h') :=
    run2 (stub_env sample_stub) overlapping_schedule
      (rollout_restart_deployment "checkout" "default")
      (rollout_restart_deployment "checkout" "default") [] in
  count_events is_patch_call h' = 2%nat
  /\ (exists res, m1 = Ret res /\ Result.success res = true)
  /\ (exists res, m2 = Ret res /\ Result.success res = true).
Proof.
  vm_compute. split; [reflexivity |].
  split; eexists; split; reflexivity.
Qed.

(** ** Every tool returns *)

Lemma listings_return (env : environment) (ns : string) :
  (exists pods h',
     run env (list_pods_in_namespace ns) [] = (Ok pods, h')
     /\ (errored h' = true -> pods = []))
  /\ (exists infos h',
        run env (list_deployments_in_namespace ns) [] = (Ok infos, h')
        /\ (errored h' = true -> infos = [])).
Proof.
  split.
  - unfold list_pods_in_namespace.
    list_cases env; eexists _, _; (split; [reflexivity |]);
      intros Herr; first [reflexivity | discriminate Herr].
  - unfold list_deployments_in_namespace.
    list_cases env; eexists _, _; (split; [reflexivity |]);
      intros Herr; try reflexivity.
    exfalso. change (?a :: ?b :: ?c :: ?t) with ([a; b; c] ++ t) in Herr.
    rewrite errored_app in Herr. destruct Hloop as [Hloop _].
    rewrite Hloop in Herr. discriminate Herr.
Qed.

(** The claim fails on the listings, which return a bare list: a listing
    that finds no kubeconfig file, a listing whose namespace the cluster
    does not know, and a listing of a namespace without pods that meets no
    error all return the same empty list, with no success flag and no
    message in it. *)
Lemma listing_errors_return_the_bare_empty_list :
  let missing := run (stub_env no_kubeconfig_stub)
                   (list_pods_in_namespace "default") [] in
  let unknown := run vanished_namespace_env
                   (list_pods_in_namespace "default") [] in
  let nothing := run (stub_env scaled_to_zero_stub)
                   (list_pods_in_namespace "default") [] in
  errored (snd missing) = true
  /\ errored (snd unknown) = true
  /\ errored (snd nothing) = false
  /\ fst missing = Ok []
  /\ fst unknown = fst missing
  /\ fst nothing = fst missing.
Proof. repeat split. Qed.

(** C6, as the code has it.  Whatever the arguments are and whatever the
    environment answers or raises, each of the four tools returns a value
    and raises nothing.  A restart that returns a success met no error, and
    a log fetch that returns a success met no error but [ApiException]s of
    pod log reads; every other run of the two returns [success = false]
    with the message of what failed (and no logs), and the messages of the
    different failures are different strings.  The two listings have no
    such result: a listing that met an error returns the empty list. *)
Theorem tools_return_one_result (env : environment) (n ns : string)
    (hours : Z) (tail : option Z) :
  (exists res h',
     run env (rollout_restart_deployment n ns) [] = (Ok res, h')
     /\ (Result.success res = true -> errored h' = false)
     /\ (Result.success res = false -> failure n ns h' (Result.message res)))
  /\ (exists res h',
        run env (get_deployment_logs n ns hours tail) [] = (Ok res, h')
        /\ (Result.success res = true ->
            forall ev, In ev h' ->
              raised ev || kubeconfig_missing ev = true ->
              log_api_error ev = true)
        /\ (Result.success res = false ->
            failure n ns h' (Result.message res)
            /\ Result.logs res = Some ∅))
  /\ (exists pods h',
        run env (list_pods_in_namespace ns) [] = (Ok pods, h')
        /\ (errored h' = true -> pods = []))
  /\ (exists infos h',
        run env (list_deployments_in_namespace ns) [] = (Ok infos, h')
        /\ (errored h' = true -> infos = []))
  /\ (forall e x,
        List.NoDup
          [kubeconfig_not_found_message; deployment_not_found_message n ns;
           api_error_message e; error_message x; no_pods_message n ns]).
Proof.
  split; [apply restart_returns |].
  split; [apply logs_returns |].
  split; [apply listings_return |].
  split; [apply listings_return |].
  intros e x. apply failure_messages_distinct.
Qed.

(** * Further properties of the tools *)

(** ** What the tools send to the cluster *)

(** X1. A restart talks to the cluster at most twice, about the deployment
    it was given only: it reads the deployment, and it patches it only once
    that read has returned the deployment. *)
Theorem restart_patches_only_what_it_read (env : environment) (n ns : string)
    (r : outcome Result.t) (h' : history) :
  run env (rollout_restart_deployment n ns) [] = (r, h') ->
  List.filter is_network_call h' = []
  \/ (exists reply,
        List.filter is_network_call h'
        = [EvCall (read_namespaced_deployment n ns) reply])
  \/ (exists d body reply,
        List.filter is_network_call h'
        = [EvCall (read_namespaced_deployment n ns) (Ok d);
           EvCall (patch_namespaced_deployment n ns body) reply]).
Proof.
  unfold rollout_restart_deployment; unfold_tool.
  answers env; intros [= <- <-]; simpl;
    first [ left; reflexivity
          | right; left; eexists; reflexivity
          | right; right; eexists _, _, _; reflexivity ].
Qed.

Lemma restart_patches_only_what_it_read_sample :
  exists d body reply,
    List.filter is_network_call
      (snd (run (stub_env sample_stub)
              (rollout_restart_deployment "checkout" "default") []))
    = [EvCall (read_namespaced_deployment "checkout" "default") (Ok d);
       EvCall (patch_namespaced_deployment "checkout" "default" body) reply].
Proof.
  destruct (run (stub_env sample_stub)
              (rollout_restart_deployment "checkout" "default") [])
    as [r h'] eqn:Hrun.
  destruct (restart_patches_only_what_it_read _ _ _ _ _ Hrun)
    as [Hnone | [[reply Hone] | Htwo]];
    vm_compute in Hrun; injection Hrun as <- <-.
  - discriminate Hnone.
  - discriminate Hone.
  - exact Htwo.
Defined.

(** X2. The listings and the log fetch only read: whatever the cluster
    answers, none of them issues a patch call. *)
Theorem readers_never_patch (env : environment) (n ns : string) (hours : Z)
    (tail : option Z) :
  count_events is_patch_call
    (snd (run env (get_deployment_logs n ns hours tail) [])) = 0%nat
  /\ count_events is_patch_call
       (snd (run env (list_pods_in_namespace ns) [])) = 0%nat
  /\ count_events is_patch_call
       (snd (run env (list_deployments_in_namespace ns) [])) = 0%nat.
Proof.
  assert (Hquiet : forall t : history,
             Forall (fun ev => is_patch_call ev = false) t ->
             count_events is_patch_call t = 0%nat).
  { induction 1 as [| ev t Hev _ IH]; [reflexivity |].
    unfold count_events in *. simpl. now rewrite Hev. }
  split; [| split].
  - logs_cases env; try reflexivity; apply Hquiet;
      repeat (constructor; [reflexivity |]).
    + apply fetched_events in Hall as [Hall _]. apply List.Forall_forall.
      intros ev Hev. destruct (Hall _ Hev) as (p & _ & reply & entry & -> & _).
      reflexivity.
    + apply Forall_app_2; [| repeat constructor].
      apply List.Forall_forall. intros ev Hev.
      rewrite List.Forall_forall in Hpre.
      destruct (Hpre _ Hev) as (p & reply & entry & -> & _). reflexivity.
  - unfold list_pods_in_namespace. list_cases env; reflexivity.
  - unfold list_deployments_in_namespace.
    list_cases env; try reflexivity; apply Hquiet;
      repeat first [ apply List.Forall_nil
                   | apply List.Forall_cons; [reflexivity |]
                   | apply Forall_app_2 ];
      (eapply List.Forall_impl; [| exact Hnet]);
      (intros [X c reply | line] Hc; [destruct c |];
       try reflexivity; discriminate Hc).
Qed.

(** ** Without a kubeconfig file *)

(** X3. When [os.path.isfile] finds no kubeconfig file, every tool stops
    there: the file test is its only call, nothing is loaded and nothing is
    sent to the cluster.  The listings print the reason and return the
    empty list; the restart and the log fetch return the failure that names
    the path. *)
Theorem no_kubeconfig_no_call (env : environment) (n ns : string) (hours : Z)
    (tail : option Z) :
  env _ [] (os_path_isfile KUBECONFIG_PATH) = Ok false ->
  let missing := EvCall (os_path_isfile KUBECONFIG_PATH) (Ok false) in
  let line := EvPrint ("Error: " +:+ kubeconfig_not_found_message) in
  run env (list_pods_in_namespace ns) [] = (Ok [], [missing; line])
  /\ run env (list_deployments_in_namespace ns) [] = (Ok [], [missing; line])
  /\ run env (rollout_restart_deployment n ns) []
     = (Ok (restart_result false kubeconfig_not_found_message n ns), [missing])
  /\ run env (get_deployment_logs n ns hours tail) []
     = (Ok (logs_result false kubeconfig_not_found_message ∅ n ns), [missing]).
Proof.
  intros Hfile.
  unfold list_pods_in_namespace, list_deployments_in_namespace,
    rollout_restart_deployment, get_deployment_logs; unfold_tool.
  simpl. rewrite Hfile. simpl. repeat split.
Qed.

Lemma no_kubeconfig_no_call_stub :
  run (stub_env no_kubeconfig_stub)
    (rollout_restart_deployment "checkout" "default") []
  = (Ok (restart_result false kubeconfig_not_found_message
           "checkout" "default"),
     [EvCall (os_path_isfile KUBECONFIG_PATH) (Ok false)]).
Proof.
  exact (proj1 (proj2 (proj2 (no_kubeconfig_no_call
                                (stub_env no_kubeconfig_stub)
                                "checkout" "default" 1 None eq_refl)))).
Defined.

(** ** What the results carry *)

(** X4. On every path, success or failure, the result of a restart and
    of a log fetch carries the deployment name and the namespace it was
    called with; a restart's result has no ["logs"], a log fetch's always
    has, and a failed log fetch's are empty. *)
Theorem results_name_their_target (env : environment) (n ns : string)
    (hours : Z) (tail : option Z) :
  (exists res h',
     run env (rollout_restart_deployment n ns) [] = (Ok res, h')
     /\ Result.deployment_name res = n /\ Result.namespace res = ns
     /\ Result.logs res = None)
  /\ (exists res h',
        run env (get_deployment_logs n ns hours tail) [] = (Ok res, h')
        /\ Result.deployment_name res = n /\ Result.namespace res = ns
        /\ exists logs, Result.logs res = Some logs
                        /\ (Result.success res = false -> logs = ∅)).
Proof.
  split.
  - unfold rollout_restart_deployment; unfold_tool.
    answers env; eexists _, _; repeat split.
  - logs_cases env; eexists _, _; (split; [reflexivity |]);
      (split; [reflexivity |]); (split; [reflexivity |]);
      eexists; (split; [reflexivity |]); simpl; intros Hs;
      first [reflexivity | discriminate Hs].
Qed.

(** ** Edges of the log fetch *)

(** X5. A pod log read that raises anything but an [ApiException] ends the
    fetch: the logs read so far are dropped and the result is the failure
    with the exception's text and no logs. *)
Theorem logs_dropped_on_other_exception (env : environment) (n ns : string)
    (hours : Z) (tail : option Z) (r : outcome Result.t) (h' : history) :
  run env (get_deployment_logs n ns hours tail) [] = (r, h') ->
  forall pod since lines e,
    In (EvCall (read_namespaced_pod_log pod ns since lines)
          (Err (OtherException e))) h' ->
    r = Ok (logs_result false (error_message (OtherException e)) ∅ n ns).
Proof.
  logs_cases env; intros [= <- <-] p since lines e Hin; inhist Hin.
  - exfalso. apply fetched_events in Hall as [Hall _].
    destruct (Hall _ Hin) as (q & _ & reply & entry & Hev & Hentry).
    observe Hev. subst reply. discriminate Hentry.
  - apply in_app_or in Hin as [Hin | Hin].
    + exfalso. rewrite List.Forall_forall in Hpre.
      destruct (Hpre _ Hin) as (q & reply & entry & Hev & Hentry).
      observe Hev. subst reply. discriminate Hentry.
    + inhist Hin. subst. reflexivity.
Qed.

(** X6. A deployment that was read but has no [match_labels] to build the
    selector from (no spec, no selector, or match expressions only) makes
    the fetch fail with the attribute error's text: its pods are not
    listed and no log is read. *)
Theorem logs_need_match_labels (env : environment) (n ns : string)
    (hours : Z) (tail : option Z) (r : outcome Result.t) (h' : history) :
  run env (get_deployment_logs n ns hours tail) [] = (r, h') ->
  forall d e,
    In (EvCall (read_namespaced_deployment n ns) (Ok d)) h' ->
    selector_items d = Raise e ->
    r = Ok (logs_result false (error_message e) ∅ n ns)
    /\ List.filter is_network_call h'
       = [EvCall (read_namespaced_deployment n ns) (Ok d)].
Proof.
  logs_cases env; intros [= <- <-] d e Hin Hraise.
  all: try (inhist Hin; subst; congruence).
  all: try (destruct Hin as [Hin | [Hin | [Hin | [Hin | Hin]]]];
            try (observe Hin; fail);
            [ observe Hin; subst; congruence | exfalso ]).
  - apply fetched_events in Hall as [Hall _].
    destruct (Hall _ Hin) as (q & _ & reply & entry & Hev & _). observe Hev.
  - apply in_app_or in Hin as [Hin | Hin]; [| inhist Hin].
    rewrite List.Forall_forall in Hpre.
    destruct (Hpre _ Hin) as (q & reply & entry & Hev & _). observe Hev.
  - inhist Hin. subst. rewrite Hsel in Hraise. injection Hraise as <-.
    split; reflexivity.
Qed.

Lemma logs_dropped_on_broken_connection :
  fst (run broken_connection_env
         (get_deployment_logs "checkout" "default" 1 None) [])
  = Ok (logs_result false
          (error_message (OtherException "Read timed out.")) ∅
          "checkout" "default").
Proof.
  destruct (run broken_connection_env
              (get_deployment_logs "checkout" "default" 1 None) [])
    as [r h'] eqn:Hrun.
  pose proof (logs_dropped_on_other_exception _ _ _ _ _ _ _ Hrun) as Hdrop.
  vm_compute in Hrun. injection Hrun as <- <-.
  simpl. eapply (Hdrop "checkout-b"). simpl. eauto 10.
Defined.

Lemma logs_need_match_labels_stub :
  fst (run (stub_env expressions_only_stub)
         (get_deployment_logs "checkout" "default" 1 None) [])
  = Ok (logs_result false
          (error_message
             (OtherException "'NoneType' object has no attribute 'items'"))
          ∅ "checkout" "default").
Proof.
  destruct (run (stub_env expressions_only_stub)
              (get_deployment_logs "checkout" "default" 1 None) [])
    as [r h'] eqn:Hrun.
  pose proof (logs_need_match_labels _ _ _ _ _ _ _ Hrun) as Hneed.
  vm_compute in Hrun. injection Hrun as <- <-.
  simpl. eapply (Hneed (expressions_only_deployment "checkout")).
  - simpl. eauto 10.
  - reflexivity.
Defined.

(** X7. An [ApiException] of the pod listing is reported like one of the
    read of the deployment: status 404 gives "Deployment ... not found ...",
    although the deployment was found, any other status gives
    "API Error: ...".  No log is read. *)
Theorem logs_listing_error (env : environment) (n ns : string)
    (hours : Z) (tail : option Z) (r : outcome Result.t) (h' : history) :
  run env (get_deployment_logs n ns hours tail) [] = (r, h') ->
  forall label_selector st e,
    In (EvCall (list_namespaced_pod ns label_selector)
          (Err (ApiException st e))) h' ->
    r = Ok (logs_result false
              (if status_is st 404
               then deployment_not_found_message n ns
               else api_error_message e) ∅ n ns)
    /\ (exists d, In (EvCall (read_namespaced_deployment n ns) (Ok d)) h')
    /\ count_events is_log_call h' = 0%nat.
Proof.
  logs_cases env; intros [= <- <-] sel st e Hin.
  all: try (inhist Hin; fail).
  all: try (inhist Hin; subst;
            match goal with H : status_is _ _ = _ |- _ => rewrite H end;
            split; [reflexivity |]; split; [| reflexivity];
            eexists; simpl; now eauto 10).
  all: exfalso;
    destruct Hin as [Hin | [Hin | [Hin | [Hin | Hin]]]];
    try (observe Hin; fail).
  - apply fetched_events in Hall as [Hall _].
    destruct (Hall _ Hin) as (q & _ & reply & entry & Hev & _). observe Hev.
  - apply in_app_or in Hin as [Hin | Hin]; [| inhist Hin].
    rewrite List.Forall_forall in Hpre.
    destruct (Hpre _ Hin) as (q & reply & entry & Hev & _). observe Hev.
Qed.

Lemma logs_listing_error_vanished_namespace :
  fst (run vanished_namespace_env
         (get_deployment_logs "checkout" "default" 1 None) [])
  = Ok (logs_result false
          (deployment_not_found_message "checkout" "default") ∅
          "checkout" "default").
Proof.
  destruct (run vanished_namespace_env
              (get_deployment_logs "checkout" "default" 1 None) [])
    as [r h'] eqn:Hrun.
  pose proof (logs_listing_error _ _ _ _ _ _ _ Hrun) as Herr.
  vm_compute in Hrun. injection Hrun as <- <-.
  simpl. eapply (Herr _ (Some 404)). simpl. eauto 10.
Defined.

Lemma size_list_to_set_le (l : list string) :
  (size (list_to_set l : gset string) <= length l)%nat.
Proof.
  induction l as [| a l IH]; [reflexivity |].
  rewrite list_to_set_cons, size_union_alt, size_singleton.
  assert (Hsub : (list_to_set l : gset string) ∖ {[a]} ⊆ list_to_set l)
    by set_solver.
  apply subseteq_size in Hsub. simpl. lia.
Qed.

(** X8. The keys of the ["logs"] of a successful fetch are exactly the
    names of the pods that were listed, so the count in its message is the
    number of different pod names: never more than the number of pods, and
    equal to it when no two pods share a name. *)
Theorem logs_keys_are_pod_names (env : environment) (n ns : string)
    (hours : Z) (tail : option Z) (res : Result.t) (h' : history) :
  run env (get_deployment_logs n ns hours tail) [] = (Ok res, h') ->
  Result.success res = true ->
  exists label_selector pods logs,
    In (EvCall (list_namespaced_pod ns label_selector) (Ok pods)) h'
    /\ Result.logs res = Some logs
    /\ Result.message res = retrieved_logs_message (size logs) n
    /\ (forall k, is_Some (logs !! k) <-> In k (map pod_name pods))
    /\ (size logs <= length pods)%nat
    /\ (List.NoDup (map pod_name pods) -> size logs = length pods).
Proof.
  logs_cases env; intros [= <- <-] Hsuccess; try discriminate Hsuccess.
  match goal with
  | _ : env _ _ (list_namespaced_pod ns ?sel) = Ok ?pods |- _ =>
      exists sel, pods
  end.
  eexists. split; [simpl; now eauto 10 |].
  split; [reflexivity |]. split; [reflexivity |].
  apply fetched_events in Hall as [Hall _].
  match goal with
  | Hk : forall k : string, _ \/ _ |- _ => rename Hk into Hkeys'
  end.
  assert (Hdom : forall k, is_Some (x2 !! k) <-> In k (map pod_name (pod :: rest))).
  { intros k. destruct (Hkeys' k) as [(reply & entry & Hev & _ & Hk) | [Hk Hnot]].
    - split; [intros _ | intros _; rewrite Hk; eauto].
      destruct (Hall _ Hev) as (q & Hq & reply' & entry' & Heq & _).
      observe Heq. subst k.
      change (name (pod_metadata q)) with (pod_name q). now apply in_map.
    - split; [| intros Hin; contradiction].
      rewrite Hk, lookup_empty. intros [? [=]]. }
  split; [exact Hdom |].
  assert (Hset : dom x2 = list_to_set (map pod_name (pod :: rest))).
  { apply set_eq. intros k. rewrite elem_of_dom, Hdom, elem_of_list_to_set.
    symmetry. apply list_elem_of_In. }
  rewrite <- size_dom, Hset. split.
  - rewrite <- (length_map pod_name (pod :: rest)).
    apply size_list_to_set_le.
  - intros Hnodup. rewrite <- (length_map pod_name (pod :: rest)).
    apply size_list_to_set. now apply NoDup_ListNoDup.
Qed.

Lemma logs_keys_are_pod_names_sample :
  exists logs,
    Result.logs
      (match fst (run (stub_env pod_b_fails_stub)
                    (get_deployment_logs "checkout" "default" 1 None) []) with
       | Ok res => res
       | Err _ => restart_result false "" "" ""
       end) = Some logs
    /\ size logs = 3%nat
    /\ (forall k, is_Some (logs !! k)
                  <-> In k ["checkout-a"; "checkout-b"; "checkout-c"]).
Proof.
  destruct (run (stub_env pod_b_fails_stub)
              (get_deployment_logs "checkout" "default" 1 None) [])
    as [r h'] eqn:Hrun.
  vm_compute in Hrun. injection Hrun as <- <-.
  destruct (logs_keys_are_pod_names (stub_env pod_b_fails_stub)
              "checkout" "default" 1 None _ _ eq_refl eq_refl)
    as (sel & pods & logs & Hin & Hlogs & _ & Hkeys & _ & Hsize).
  inhist Hin. subst pods.
  exists logs. split; [exact Hlogs |]. split; [| exact Hkeys].
  apply Hsize. simpl. repeat constructor; simpl; intuition discriminate.
Defined.

(** ** The listings *)

(** X9. When the cluster lists the pods of the namespace, the listing of
    pods returns one entry per pod, in the cluster's order, with the pod's
    name, its phase as status and its IP; it asked the cluster once, for
    all pods of the namespace, and printed nothing. *)
Theorem list_pods_entries (env : environment) (ns : string)
    (r : outcome (list PodInfo.t)) (h' : history) :
  run env (list_pods_in_namespace ns) [] = (r, h') ->
  forall label_selector pods,
    In (EvCall (list_namespaced_pod ns label_selector) (Ok pods)) h' ->
    r = Ok (map (fun pod => {| PodInfo.name := name (pod_metadata pod);
                               PodInfo.status := phase (pod_status pod);
                               PodInfo.ip := pod_ip (pod_status pod) |}) pods)
    /\ label_selector = None
    /\ List.filter is_network_call h'
       = [EvCall (list_namespaced_pod ns None) (Ok pods)]
    /\ printed h' = [].
Proof.
  unfold list_pods_in_namespace. list_cases env.
  all: intros [= <- <-] sel pods Hin; inhist Hin.
  subst. repeat split.
Qed.

Lemma list_pods_entries_sample :
  fst (run (stub_env sample_stub) (list_pods_in_namespace "default") [])
  = Ok [ {| PodInfo.name := "checkout-a"; PodInfo.status := Some "Running";
            PodInfo.ip := Some "10.42.0.7" |};
         {| PodInfo.name := "checkout-b"; PodInfo.status := Some "Running";
            PodInfo.ip := Some "10.42.0.7" |};
         {| PodInfo.name := "checkout-c"; PodInfo.status := Some "Running";
            PodInfo.ip := Some "10.42.0.7" |} ].
Proof.
  destruct (run (stub_env sample_stub) (list_pods_in_namespace "default") [])
    as [r h'] eqn:Hrun.
  pose proof (list_pods_entries _ _ _ _ Hrun) as Hentries.
  vm_compute in Hrun. injection Hrun as <- <-.
  simpl. eapply (Hentries None (stub_pods sample_stub)). simpl. eauto 10.
Defined.

Lemma printed_app (h1 h2 : history) :
  printed (h1 ++ h2) = printed h1 ++ printed h2.
Proof. unfold printed. apply flat_map_app. Qed.

(** The loop over the deployments prints nothing. *)
Lemma deployment_infos_print_nothing (env : environment) :
  forall (items : list V1Deployment) (h : history)
         (r : outcome (list DeploymentInfo.t)) (h' : history),
    run env (deployment_infos items) h = (r, h') -> printed h' = printed h.
Proof.
  induction items as [| d rest IH]; intros h r h' Hrun.
  - inversion Hrun; reflexivity.
  - unfold deployment_infos in Hrun; fold deployment_infos in Hrun.
    unfold mbind, prog_bind, mret, prog_ret in Hrun.
    rewrite run_bind in Hrun.
    assert (Hone : forall r1 h1,
               run env (deployment_info_of d) h = (r1, h1) ->
               printed h1 = printed h).
    { unfold deployment_info_of; unfold_tool.
      destruct (creation_timestamp (metadata d)); simpl.
      - destruct (env _ h datetime_now); simpl; intros r1 h1 [= <- <-];
          rewrite printed_app; simpl; apply app_nil_r.
      - intros r1 h1 [= <- <-]. reflexivity. }
    destruct (run env (deployment_info_of d) h) as [[info | e] h1] eqn:Hrun1;
      specialize (Hone _ _ eq_refl).
    + rewrite run_bind in Hrun.
      destruct (run env (deployment_infos rest) h1) as [[infos | e] h2] eqn:Hrun2;
        apply IH in Hrun2; simpl in Hrun; injection Hrun as <- <-; congruence.
    + injection Hrun as <- <-. exact Hone.
Qed.

Lemma printed_call {X : Type} (c : call X) (r : outcome X) (h : history) :
  printed (EvCall c r :: h) = printed h.
Proof. reflexivity. Qed.

Lemma errored_cons (ev : event) (h : history) :
  errored (ev :: h) = (raised ev || kubeconfig_missing ev) || errored h.
Proof. reflexivity. Qed.

(** X10. The listings tell the cause of an error on standard output only.
    A run without an error prints nothing; a run that met one prints
    exactly one line; and when the cluster refused the listing, that line
    is "Error: Namespace ... not found" for status 404 and "API Error: ..."
    with the error's text for any other status. *)
Theorem listings_print_the_cause (env : environment) (ns : string) :
  (forall r h',
     run env (list_pods_in_namespace ns) [] = (r, h') ->
     (errored h' = false -> printed h' = [])
     /\ (errored h' = true -> length (printed h') = 1%nat)
     /\ (forall st e,
           In (EvCall (list_namespaced_pod ns None)
                 (Err (ApiException st e))) h' ->
           printed h' = [if status_is st 404
                         then namespace_not_found_message ns
                         else api_error_message e]))
  /\ (forall r h',
        run env (list_deployments_in_namespace ns) [] = (r, h') ->
        (errored h' = false -> printed h' = [])
        /\ (errored h' = true -> length (printed h') = 1%nat)
        /\ (forall st e,
              In (EvCall (list_namespaced_deployment ns)
                    (Err (ApiException st e))) h' ->
              printed h' = [if status_is st 404
                            then namespace_not_found_message ns
                            else api_error_message e])).
Proof.
  split; intros r h'.
  - unfold list_pods_in_namespace. list_cases env.
    all: intros [= <- <-];
      (split; [intros Herr; first [discriminate Herr | reflexivity] |]);
      (split; [intros Herr; first [discriminate Herr | reflexivity] |]);
      intros st e Hin; inhist Hin; subst;
      match goal with H : status_is _ _ = _ |- _ => rewrite H end;
      reflexivity.
  - unfold list_deployments_in_namespace; unfold_tool.
    answers env; try rewrite !run_try_except;
      try match goal with
             | |- context [run env (deployment_infos ?items) ?h] =>
                 destruct (run env (deployment_infos items) h)
                   as [[infos | [st0 e0 | e0]] h''] eqn:Hloop;
                 pose proof (deployment_infos_print_nothing _ _ _ _ _ Hloop)
                   as Hquiet;
                 apply deployment_infos_run in Hloop;
                 destruct Hloop as (t & -> & Hnet & Hloop);
                 answers env
             end.
    all: intros [= <- <-].
    all: try ((split; [intros Herr; first [discriminate Herr | reflexivity] |]);
              (split; [intros Herr; first [discriminate Herr | reflexivity] |]);
              intros st e Hin; inhist Hin; subst;
              match goal with H : status_is _ _ = _ |- _ => rewrite H end;
              reflexivity).
    all: rewrite printed_app in Hquiet; simpl in Hquiet;
      rewrite !printed_call, ?printed_app, Hquiet;
      rewrite !errored_cons, ?errored_app;
      match type of Hloop with
      | _ /\ _ => destruct Hloop as [Hloop _]
      | _ => idtac
      end; rewrite Hloop; simpl;
      (split; [intros Herr; first [discriminate Herr | reflexivity] |]);
      (split; [intros Herr; first [discriminate Herr | reflexivity] |]);
      intros st e Hin; exfalso;
      destruct Hin as [Hin | [Hin | [Hin | Hin]]]; try (observe Hin; fail);
      try (apply in_app_or in Hin as [Hin | Hin]; [| inhist Hin]);
      rewrite List.Forall_forall in Hnet; apply Hnet in Hin; discriminate Hin.
Qed.

(** ** The restart timestamp *)

Lemma digit_char_inj (a b : Z) :
  digit_char (a mod 10) = digit_char (b mod 10) -> a mod 10 = b mod 10.
Proof.
  intros H. apply (f_equal digit_val) in H.
  now rewrite !digit_val_char in H by (apply Z.mod_pos_bound; lia).
Qed.

Lemma digits2_inj (n m : Z) :
  0 <= n < 100 -> 0 <= m < 100 ->
  n / 10 mod 10 = m / 10 mod 10 -> n mod 10 = m mod 10 -> n = m.
Proof. intros Hn Hm. Z.div_mod_to_equations. lia. Qed.

Lemma digits4_inj (n m : Z) :
  0 <= n < 10000 -> 0 <= m < 10000 ->
  n / 10 / 10 / 10 mod 10 = m / 10 / 10 / 10 mod 10 ->
  n / 10 / 10 mod 10 = m / 10 / 10 mod 10 ->
  n / 10 mod 10 = m / 10 mod 10 -> n mod 10 = m mod 10 -> n = m.
Proof. intros Hn Hm. Z.div_mod_to_equations. lia. Qed.

Lemma digits6_inj (n m : Z) :
  0 <= n < 1000000 -> 0 <= m < 1000000 ->
  n / 10 / 10 / 10 / 10 / 10 mod 10 = m / 10 / 10 / 10 / 10 / 10 mod 10 ->
  n / 10 / 10 / 10 / 10 mod 10 = m / 10 / 10 / 10 / 10 mod 10 ->
  n / 10 / 10 / 10 mod 10 = m / 10 / 10 / 10 mod 10 ->
  n / 10 / 10 mod 10 = m / 10 / 10 mod 10 ->
  n / 10 mod 10 = m / 10 mod 10 -> n mod 10 = m mod 10 -> n = m.
Proof. intros Hn Hm. Z.div_mod_to_equations. lia. Qed.

(** X11. Restarts at different instants write different timestamps: the
    patch body determines the time it was built from, down to the
    microsecond.  (A patch that repeated the value of the annotation would
    restart nothing.) *)
Theorem patch_body_tells_the_instant (a b : datetime) :
  valid_datetime a -> valid_datetime b ->
  patch_body (isoformat a +:+ "Z") = patch_body (isoformat b +:+ "Z") ->
  a = b.
Proof.
  intros (Hy & Hm & Hd & Hh & Hmi & Hs & Hus)
         (Hy' & Hm' & Hd' & Hh' & Hmi' & Hs' & Hus') Hbody.
  destruct a as [y mo d hh mi s us], b as [y' mo' d' hh' mi' s' us'].
  unfold patch_body, isoformat, zfill in Hbody. simpl in *.
  injection Hbody; clear Hbody; intros Hfraction; intros.
  assert (Hmicro : us = us').
  { destruct (Z.eqb_spec us 0) as [-> | Hnz],
             (Z.eqb_spec us' 0) as [-> | Hnz'];
      simpl in Hfraction; try discriminate Hfraction; [reflexivity |].
    unfold zfill in Hfraction. simpl in Hfraction.
    injection Hfraction; intros.
    repeat match goal with
           | H : digit_char _ = digit_char _ |- _ => apply digit_char_inj in H
           end.
    apply digits6_inj; assumption || lia. }
  repeat match goal with
         | H : digit_char _ = digit_char _ |- _ => apply digit_char_inj in H
         end.
  f_equal;
    first [ exact Hmicro
          | apply digits4_inj; assumption || lia
          | apply digits2_inj; assumption || lia ].
Qed.

Lemma patch_body_tells_the_instant_sample :
  patch_body (isoformat sample_clock +:+ "Z")
  <> patch_body (isoformat next_clock +:+ "Z").
Proof.
  intros Hsame.
  apply patch_body_tells_the_instant in Hsame;
    [discriminate Hsame | |]; unfold valid_datetime; simpl; lia.
Defined.

(** ** The label selector *)

Lemma label_selector_empty (labels : list (string * string)) :
  label_selector_of labels = "" <-> labels = [].
Proof.
  split; [| now intros ->].
  destruct labels as [| [k v] rest]; [reflexivity |].
  unfold label_selector_of. simpl.
  destruct (map _ rest) as [| s l]; intros H;
    destruct k; simpl in H; discriminate H.
Qed.

(** X12. Whenever a log fetch lists pods, it does so for a deployment it
    has read, with the selector [k1=v1,k2=v2,...] built from the
    deployment's [match_labels]; that selector is empty, and selects every
    pod of the namespace, exactly when the deployment has no label to
    match. *)
Theorem logs_list_with_the_selector (env : environment) (n ns : string)
    (hours : Z) (tail : option Z) (r : outcome Result.t) (h' : history) :
  run env (get_deployment_logs n ns hours tail) [] = (r, h') ->
  forall label_selector reply,
    In (EvCall (list_namespaced_pod ns label_selector) reply) h' ->
    exists d labels,
      In (EvCall (read_namespaced_deployment n ns) (Ok d)) h'
      /\ selector_items d = Ret labels
      /\ label_selector
         = Some (String.concat ","
                   (map (fun kv => fst kv +:+ "=" +:+ snd kv) labels))
      /\ (label_selector = Some "" <-> labels = []).
Proof.
  assert (Hempty : forall labels,
             Some (label_selector_of labels) = Some "" <-> labels = []).
  { intros labels. rewrite <- label_selector_empty.
    split; [now intros [= ->] | now intros ->]. }
  logs_cases env; intros [= <- <-] sel reply Hin.
  all: try (inhist Hin; fail).
  all: try (inhist Hin; subst; eexists _, _;
            (split; [simpl; now eauto 10 |]);
            (split; [eassumption |]); (split; [reflexivity |]);
            apply Hempty).
  all: destruct Hin as [Hin | [Hin | [Hin | [Hin | Hin]]]];
    try (observe Hin; fail).
  all: try (observe Hin; subst; eexists _, _;
            (split; [simpl; now eauto 10 |]);
            (split; [eassumption |]); (split; [reflexivity |]);
            apply Hempty).
  - exfalso. apply fetched_events in Hall as [Hall _].
    destruct (Hall _ Hin) as (q & _ & reply' & entry & Hev & _). observe Hev.
  - exfalso. apply in_app_or in Hin as [Hin | Hin]; [| inhist Hin].
    rewrite List.Forall_forall in Hpre.
    destruct (Hpre _ Hin) as (q & reply' & entry & Hev & _). observe Hev.
Qed.

Lemma logs_list_with_the_selector_sample :
  exists reply,
    In (EvCall (list_namespaced_pod "default" (Some "app=checkout")) reply)
      (snd (run (stub_env sample_stub)
              (get_deployment_logs "checkout" "default" 1 None) [])).
Proof.
  destruct (run (stub_env sample_stub)
              (get_deployment_logs "checkout" "default" 1 None) [])
    as [r h'] eqn:Hrun.
  pose proof (logs_list_with_the_selector _ _ _ _ _ _ _ Hrun) as Hsel.
  vm_compute in Hrun. injection Hrun as <- <-.
  destruct (Hsel (Some "app=checkout") (Ok (stub_pods sample_stub)))
    as (d & labels & Hread & _).
  - simpl. eauto 10.
  - eexists. simpl. do 3 right. left. reflexivity.
Defined.

Lemma filter_network_quiet (t : history) :
  Forall (fun ev => is_network_call ev = false) t ->
  List.filter is_network_call t = [].
Proof.
  induction 1 as [| ev t Hev _ IH]; [reflexivity |].
  simpl. now rewrite Hev.
Qed.

(** X13. When the cluster lists the deployments and the run meets no
    error, the listing of deployments returns one entry per deployment, in
    the cluster's order: the entry has the deployment's name, the desired
    count as reported ([0] without a spec), the ready, available and
    up-to-date counts with [0] for a count that is not reported, and the
    container images.  The cluster was asked once. *)
Theorem list_deployments_entries (env : environment) (ns : string)
    (r : outcome (list DeploymentInfo.t)) (h' : history) :
  run env (list_deployments_in_namespace ns) [] = (r, h') ->
  forall items,
    In (EvCall (list_namespaced_deployment ns) (Ok items)) h' ->
    errored h' = false ->
    exists infos,
      r = Ok infos
      /\ Forall2 snapshot items infos
      /\ List.filter is_network_call h'
         = [EvCall (list_namespaced_deployment ns) (Ok items)].
Proof.
  unfold list_deployments_in_namespace. list_cases env.
  all: intros [= <- <-] items Hin Herr; try discriminate Herr.
  all: try (exfalso; rewrite !errored_cons, ?errored_app in Herr;
            simpl in Herr; rewrite Hloop in Herr; discriminate Herr).
  destruct Hloop as [_ Hall].
  destruct Hin as [Hin | [Hin | [Hin | Hin]]]; try (observe Hin; fail).
  - observe Hin. subst. eexists. split; [reflexivity |]. split.
    + eapply Forall2_impl; [exact Hall |]. now intros d info [Hsnap _].
    + simpl. now rewrite filter_network_quiet.
  - exfalso. rewrite List.Forall_forall in Hnet.
    apply Hnet in Hin. discriminate Hin.
Qed.

Lemma list_deployments_entries_scaled_to_zero :
  exists info,
    fst (run (stub_env scaled_to_zero_stub)
           (list_deployments_in_namespace "default") []) = Ok [info]
    /\ DeploymentInfo.name info = "checkout"
    /\ DeploymentInfo.total_replicas info = Some 0
    /\ DeploymentInfo.ready_replicas info = 0
    /\ DeploymentInfo.image info = ["nginx:1.25"].
Proof.
  destruct (run (stub_env scaled_to_zero_stub)
              (list_deployments_in_namespace "default") [])
    as [r h'] eqn:Hrun.
  pose proof (list_deployments_entries _ _ _ _ Hrun) as Hentries.
  vm_compute in Hrun. injection Hrun as <- <-.
  destruct (Hentries (stub_deployments scaled_to_zero_stub))
    as (infos & Hr & Hall & _).
  - simpl. eauto 10.
  - reflexivity.
  - simpl in Hr. injection Hr as <-.
    inversion Hall as [| d info ds infos' Hsnap Hrest]; subst.
    destruct Hsnap as (Hname & Htotal & Hready & _ & _ & Himage).
    eexists. split; [reflexivity |]. repeat split; assumption.
Defined.

(** * The agent's side *)

(** X14. The extraction of the agent's answer returns a value on every
    input and raises nothing: either it returns without a trace, or
    something raised on the way, and it prints one line and returns the
    empty string. *)
Theorem extraction_never_raises (env : environment) (h : history)
    (response_dict : pyobj) :
  (exists v, run env (extract_ai_message_content response_dict) h = (Ok v, h))
  \/ (exists line,
        run env (extract_ai_message_content response_dict) h
        = (Ok (PyStr ""), h ++ [EvPrint line])).
Proof.
  unfold extract_ai_message_content, py_get, py_last; unfold_tool.
  destruct response_dict as [| s | items | items | class attrs]; simpl;
    try (right; eexists; reflexivity).
  - destruct (lookup_key "agent" items) as [[| s | l | agent | class attrs] |];
      simpl; try (right; eexists; reflexivity);
      try (left; eexists; reflexivity).
    + destruct (lookup_key "messages" agent)
        as [[| s | l | d | class attrs] |];
        simpl; try (right; eexists; reflexivity);
        try (left; eexists; reflexivity).
      * destruct (String.eqb s ""); simpl; left; eexists; reflexivity.
      * destruct l as [| m l]; simpl; [left; eexists; reflexivity |].
        destruct (last (m :: l)) as [[| s | l' | d | class attrs] |]; simpl;
          try (left; eexists; reflexivity);
          try (right; eexists; reflexivity).
        -- destruct (lookup_key "content" d); left; eexists; reflexivity.
        -- destruct (lookup_key "content" attrs); left; eexists; reflexivity.
      * destruct d; simpl; [left | right]; eexists; reflexivity.
    + destruct (lookup_key "get" attrs); simpl; right; eexists; reflexivity.
  - destruct (lookup_key "get" attrs); simpl; right; eexists; reflexivity.
Qed.

Lemma truthy_snoc (before : list pyobj) (x : pyobj) :
  truthy (PyList (before ++ [x])) = true.
Proof. destruct before; reflexivity. Qed.

#[local] Arguments truthy : simpl never.

(** X15. The answer extracted from a response is the content of the last
    message of the agent, whatever came before it: the attribute
    [content] when the last message is an object that has one, the value
    of the key ["content"] when it is a dictionary that has one.  Nothing
    is printed. *)
Theorem extraction_takes_the_last_message (env : environment) (h : history)
    (response agent : list (string * pyobj)) (before : list pyobj)
    (last_message content : pyobj) :
  lookup_key "agent" response = Some (PyDict agent) ->
  lookup_key "messages" agent = Some (PyList (before ++ [last_message])) ->
  (exists class attrs,
     last_message = PyObject class attrs
     /\ lookup_key "content" attrs = Some content)
  \/ (exists items,
        last_message = PyDict items
        /\ lookup_key "content" items = Some content) ->
  run env (extract_ai_message_content (PyDict response)) h = (Ok content, h).
Proof.
  intros Hagent Hmessages Hlast.
  unfold extract_ai_message_content, py_get, py_last; unfold_tool. simpl.
  rewrite Hagent. simpl. rewrite Hmessages. simpl.
  rewrite truthy_snoc. simpl. rewrite last_snoc. simpl.
  destruct Hlast as [(class & attrs & -> & Hcontent)
                    | (items & -> & Hcontent)];
    simpl; rewrite Hcontent; reflexivity.
Qed.

Lemma extraction_takes_the_last_message_sample :
  run no_calls
    (extract_ai_message_content
       (PyDict (agent_update [ai_message "Checking the deployment.";
                              ai_message "Restart initiated."]))) []
  = (Ok (PyStr "Restart initiated."), []).
Proof.
  apply (extraction_takes_the_last_message no_calls []
           (agent_update [ai_message "Checking the deployment.";
                          ai_message "Restart initiated."])
           [("messages", PyList [ai_message "Checking the deployment.";
                                 ai_message "Restart initiated."])]
           [ai_message "Checking the deployment."]
           (ai_message "Restart initiated.")).
  - reflexivity.
  - reflexivity.
  - left. eexists _, _. split; reflexivity.
Defined.

(** X16. A response without the key ["agent"], without messages, or with an
    empty list of messages gives the empty string, and so does a last
    message that has no content; nothing is printed. *)
Theorem extraction_of_nothing (env : environment) (h : history)
    (response : list (string * pyobj)) :
  (lookup_key "agent" response = None ->
   run env (extract_ai_message_content (PyDict response)) h
   = (Ok (PyStr ""), h))
  /\ (forall agent,
        lookup_key "agent" response = Some (PyDict agent) ->
        lookup_key "messages" agent = None
        \/ lookup_key "messages" agent = Some (PyList []) ->
        run env (extract_ai_message_content (PyDict response)) h
        = (Ok (PyStr ""), h))
  /\ (forall agent before last_message,
        lookup_key "agent" response = Some (PyDict agent) ->
        lookup_key "messages" agent = Some (PyList (before ++ [last_message])) ->
        match last_message with
        | PyObject _ attrs => lookup_key "content" attrs = None
        | PyDict items => lookup_key "content" items = None
        | _ => True
        end ->
        run env (extract_ai_message_content (PyDict response)) h
        = (Ok (PyStr ""), h)).
Proof.
  unfold extract_ai_message_content, py_get, py_last; unfold_tool.
  split; [| split].
  - intros Hagent. simpl. rewrite Hagent. reflexivity.
  - intros agent Hagent [Hmessages | Hmessages]; simpl;
      rewrite Hagent; simpl; rewrite Hmessages; reflexivity.
  - intros agent before last_message Hagent Hmessages Hlast. simpl.
    rewrite Hagent. simpl. rewrite Hmessages. simpl.
    rewrite truthy_snoc. simpl. rewrite last_snoc. simpl.
    destruct last_message; simpl; try reflexivity; rewrite Hlast; reflexivity.
Qed.

Lemma extraction_of_nothing_tools_update :
  run no_calls
    (extract_ai_message_content
       (PyDict (tools_update [ai_message "pods listed"]))) []
  = (Ok (PyStr ""), []).
Proof.
  exact (proj1 (extraction_of_nothing no_calls []
                  (tools_update [ai_message "pods listed"])) eq_refl).
Defined.


(** The extraction makes no call: it runs the same in every environment
    and after every history. *)
Lemma extraction_shape (response_dict : pyobj) :
  exists v,
    (forall env h,
       run env (extract_ai_message_content response_dict) h = (Ok v, h))
    \/ (exists line, forall env h,
          run env (extract_ai_message_content response_dict) h
          = (Ok v, h ++ [EvPrint line])).
Proof.
  unfold extract_ai_message_content, py_get, py_last; unfold_tool.
  destruct response_dict as [| s | items | items | class attrs]; simpl;
    try (eexists; right; eexists; intros env h; reflexivity).
  - destruct (lookup_key "agent" items) as [[| s | l | agent | class attrs] |];
      simpl; try (eexists; right; eexists; intros env h; reflexivity);
      try (eexists; left; intros env h; reflexivity).
    + destruct (lookup_key "messages" agent)
        as [[| s | l | d | class attrs] |];
        simpl; try (eexists; right; eexists; intros env h; reflexivity);
        try (eexists; left; intros env h; reflexivity).
      * unfold truthy. destruct (String.eqb s ""); simpl;
          eexists; left; intros env h; reflexivity.
      * unfold truthy.
        destruct l as [| m l]; simpl;
          [eexists; left; intros env h; reflexivity |].
        destruct (last (m :: l)) as [[| s | l' | d | class attrs] |]; simpl;
          try (eexists; left; intros env h; reflexivity);
          try (eexists; right; eexists; intros env h; reflexivity).
        -- destruct (lookup_key "content" d);
             eexists; left; intros env h; reflexivity.
        -- destruct (lookup_key "content" attrs);
             eexists; left; intros env h; reflexivity.
      * unfold truthy. destruct d; simpl; eexists; [left | right; eexists];
          intros env h; reflexivity.
    + destruct (lookup_key "get" attrs); simpl;
        eexists; right; eexists; intros env h; reflexivity.
  - destruct (lookup_key "get" attrs); simpl;
      eexists; right; eexists; intros env h; reflexivity.
Qed.

Lemma extraction_run (env : environment) (h : history) (response : pyobj) :
  exists t,
    run env (extract_ai_message_content response) h
    = (Ok (extracted response), h ++ t).
Proof.
  unfold extracted.
  destruct (extraction_shape response) as [v [Hquiet | [line Hline]]].
  - rewrite (Hquiet no_calls []), (Hquiet env h). simpl.
    exists []. now rewrite app_nil_r.
  - rewrite (Hline no_calls []), (Hline env h). simpl.
    eexists. reflexivity.
Qed.

#[local] Arguments extract_ai_message_content : simpl never.

Lemma speaks_agent (chunk : list (string * pyobj)) (v : pyobj) :
  lookup_key "agent" chunk = Some v ->
  speaks chunk = truthy (extracted (PyDict chunk)).
Proof. intros H. unfold speaks. now rewrite H. Qed.

Lemma final_response_from_run (env : environment) :
  forall (reversed_chunks : list (list (string * pyobj))) (init : pyobj)
         (h : history),
    exists v t,
      run env (final_response_from reversed_chunks init) h = (Ok v, h ++ t)
      /\ (forall pre chunk post,
            reversed_chunks = pre ++ chunk :: post ->
            Forall (fun c => speaks c = false) pre ->
            speaks chunk = true ->
            v = extracted (PyDict chunk))
      /\ (Forall (fun c => speaks c = false) reversed_chunks ->
          truthy init = false -> truthy v = false).
Proof.
  induction reversed_chunks as [| chunk0 rest IH]; intros init h.
  - exists init, []. rewrite app_nil_r. split; [reflexivity |]. split.
    + intros pre chunk post Heq. destruct pre; discriminate Heq.
    + auto.
  - unfold final_response_from; fold final_response_from.
    destruct (lookup_key "agent" chunk0) as [agent |] eqn:Hagent.
    + unfold mbind, prog_bind, mret, prog_ret. rewrite run_bind.
      destruct (extraction_run env h (PyDict chunk0)) as [t0 ->].
      pose proof (speaks_agent _ _ Hagent) as Hspeaks.
      destruct (truthy (extracted (PyDict chunk0))) eqn:Htruthy.
      * exists (extracted (PyDict chunk0)), t0. split; [reflexivity |]. split.
        -- intros pre chunk post Heq Hpre Hchunk.
           destruct pre as [| c pre]; simpl in Heq; injection Heq as <- Hrest.
           ++ reflexivity.
           ++ inversion Hpre; subst. congruence.
        -- intros Hall. inversion Hall; subst. congruence.
      * destruct (IH (extracted (PyDict chunk0)) (h ++ t0))
          as (v & t & Hrun & Hfirst & Hnone).
        exists v, (t0 ++ t). rewrite app_assoc. split; [exact Hrun |]. split.
        -- intros pre chunk post Heq Hpre Hchunk.
           destruct pre as [| c pre]; simpl in Heq; injection Heq as <- Hrest.
           ++ congruence.
           ++ inversion Hpre; subst. eapply Hfirst; eauto.
        -- intros Hall _. inversion Hall; subst. now apply Hnone.
    + destruct (IH init h) as (v & t & Hrun & Hfirst & Hnone).
      exists v, t. split; [exact Hrun |]. split.
      * intros pre chunk post Heq Hpre Hchunk.
        destruct pre as [| c pre]; simpl in Heq; injection Heq as <- Hrest.
        -- unfold speaks in Hchunk. rewrite Hagent in Hchunk. discriminate.
        -- inversion Hpre; subst. eapply Hfirst; eauto.
      * intros Hall Hinit. inversion Hall; subst. now apply Hnone.
Qed.

(** X17. The final response of the agent is what the last update of the
    stream that has messages of the agent with something to say holds:
    updates without the key ["agent"] and updates whose extraction is empty
    are passed over, from the end of the stream backwards.  When no update
    has anything to say, the final response is empty, and nothing is
    reported. *)
Theorem final_response_is_the_last_answer (env : environment)
    (chunks : list (list (string * pyobj))) :
  exists v t,
    run env (final_response chunks) [] = (Ok v, t)
    /\ (forall before chunk after,
          chunks = before ++ chunk :: after ->
          speaks chunk = true ->
          Forall (fun c => speaks c = false) after ->
          v = extracted (PyDict chunk) /\ truthy v = true)
    /\ (Forall (fun c => speaks c = false) chunks -> truthy v = false).
Proof.
  unfold final_response.
  destruct (final_response_from_run env (rev chunks) PyNone [])
    as (v & t & Hrun & Hfirst & Hnone).
  exists v, t. split; [exact Hrun |]. split.
  - intros before chunk after -> Hchunk Hafter.
    assert (Hv : v = extracted (PyDict chunk)).
    { apply (Hfirst (rev after) chunk (rev before)).
      - rewrite rev_app_distr. simpl. now rewrite <- app_assoc.
      - now apply Forall_rev. 
      - exact Hchunk. }
    split; [exact Hv |]. subst v.
    unfold speaks in Hchunk.
    destruct (lookup_key "agent" chunk); [exact Hchunk | discriminate].
  - intros Hall. apply Hnone; [now apply Forall_rev | reflexivity].
Qed.

Lemma final_response_is_the_last_answer_sample :
  fst (run no_calls
         (final_response
            [agent_update [ai_message ""];
             tools_update [PyObject "ToolMessage" [("content", PyStr "ok")]];
             agent_update [ai_message "Restart initiated."];
             tools_update []]) [])
  = Ok (PyStr "Restart initiated.").
Proof.
  destruct (final_response_is_the_last_answer no_calls
              [agent_update [ai_message ""];
               tools_update [PyObject "ToolMessage" [("content", PyStr "ok")]];
               agent_update [ai_message "Restart initiated."];
               tools_update []])
    as (v & t & Hrun & Hlast & _).
  rewrite Hrun. simpl.
  destruct (Hlast [agent_update [ai_message ""];
                   tools_update [PyObject "ToolMessage" [("content", PyStr "ok")]]]
              (agent_update [ai_message "Restart initiated."])
              [tools_update []]) as [-> _].
  - reflexivity.
  - reflexivity.
  - repeat constructor.
  - reflexivity.
Defined.

(** * The calls of a successful restart *)

(** X18. A restart that returns a success has made exactly five calls, in
    this order: the test for the kubeconfig file, its loading, the read of
    the deployment, the reading of the clock, and the patch of that
    deployment, acknowledged, whose body carries the time just read.  Its
    message names the deployment and the namespace. *)
Theorem successful_restart_calls (env : environment) (n ns : string)
    (res : Result.t) (h' : history) :
  run env (rollout_restart_deployment n ns) [] = (Ok res, h') ->
  Result.success res = true ->
  exists d dt reply,
    h' = [EvCall (os_path_isfile KUBECONFIG_PATH) (Ok true);
          EvCall (load_kube_config KUBECONFIG_PATH) (Ok tt);
          EvCall (read_namespaced_deployment n ns) (Ok d);
          EvCall datetime_utcnow (Ok dt);
          EvCall (patch_namespaced_deployment n ns
                    (patch_body (isoformat dt +:+ "Z"))) (Ok reply)]
    /\ Result.message res
       = "Deployment '" +:+ n +:+ "' in namespace '" +:+ ns
         +:+ "' rollout restart initiated".
Proof.
  unfold rollout_restart_deployment; unfold_tool.
  answers env; intros [= <- <-] Hsuccess; try discriminate Hsuccess.
  repeat match goal with x : unit |- _ => destruct x end.
  eexists _, _, _. split; reflexivity.
Qed.

Lemma successful_restart_calls_sample :
  exists d reply,
    snd (run (stub_env sample_stub)
           (rollout_restart_deployment "checkout" "default") [])
    = [EvCall (os_path_isfile KUBECONFIG_PATH) (Ok true);
       EvCall (load_kube_config KUBECONFIG_PATH) (Ok tt);
       EvCall (read_namespaced_deployment "checkout" "default") (Ok d);
       EvCall datetime_utcnow (Ok sample_clock);
       EvCall (patch_namespaced_deployment "checkout" "default"
                 (patch_body "2024-05-17T09:03:41.250000Z")) (Ok reply)].
Proof.
  destruct (run (stub_env sample_stub)
              (rollout_restart_deployment "checkout" "default") [])
    as [r h'] eqn:Hrun.
  vm_compute in Hrun. injection Hrun as <- <-.
  destruct (successful_restart_calls (stub_env sample_stub)
              "checkout" "default" _ _ eq_refl eq_refl)
    as (d & dt & reply & Hh & _).
  simpl. eexists _, _. reflexivity.
Defined.
